(** * EMUSNESV0: the three-opcode CPU, the PPU and the frame loop

    A shallow embedding of [EMUSNESV0.py].  Python integers are [Z], a
    [bytearray] is a [list byte], a Python list of integers is a [list Z];
    a method of an object is a computation in a state-and-exception monad
    over the record of that object's attributes, so that an exception
    leaves the attributes as they were when it was raised. *)

From stdpp Require Import base list strings.
From Stdlib Require Import ZArith Lia.
From Stdlib.Strings Require Import Byte.

Open Scope Z_scope.

(** ** Python sequences *)

#[export] Instance byte_eq_dec : EqDecision byte := Byte.byte_eq_dec.

Module Py.

(** The exceptions the modelled code can raise. *)
Inductive exn : Set :=
| IndexError
| ValueError.

Inductive outcome (A : Type) : Type :=
| Normal (v : A)
| Raise (e : exn).
Arguments Normal {A} v.
Arguments Raise {A} e.

(** [range(n)] *)
Definition range (n : Z) : list Z := Z.of_nat <$> seq 0 (Z.to_nat n).

(** The index [i] of [s[i]]: a negative one counts from the end. *)
Definition index {A} (s : list A) (i : Z) : Z :=
  if i <? 0 then i + Z.of_nat (length s) else i.

(** [s[i]]; [None] stands for [IndexError]. *)
Definition getitem {A} (s : list A) (i : Z) : option A :=
  let j := index s i in
  if j <? 0 then None else s !! Z.to_nat j.

(** [s[i] = v] once [v] is known to be storable; [None] stands for
    [IndexError]. *)
Definition setitem {A} (s : list A) (i : Z) (v : A) : option (list A) :=
  let j := index s i in
  if (0 <=? j) && (j <? Z.of_nat (length s))
  then Some (<[Z.to_nat j := v]> s) else None.

(** A bound of [s[lo:hi]]: negative counts from the end, then clamped. *)
Definition slice_bound (len i : Z) : Z :=
  Z.max 0 (Z.min (if i <? 0 then i + len else i) len).

(** [s[lo:hi] = data]: the slice is replaced by [data] whatever the two
    lengths are, so the sequence grows or shrinks by the difference. *)
Definition setslice {A} (s : list A) (lo hi : Z) (data : list A) : list A :=
  let len := Z.of_nat (length s) in
  let lo' := slice_bound len lo in
  let hi' := Z.max lo' (slice_bound len hi) in
  take (Z.to_nat lo') s ++ data ++ drop (Z.to_nat hi') s.

(** The integer an element of a [bytearray] reads as. *)
Definition byte_to_Z (b : byte) : Z := Z.of_N (Byte.to_N b).

(** The element an integer is stored as; [None] stands for the
    [ValueError] "byte must be in range(0, 256)". *)
Definition byte_of_Z (v : Z) : option byte :=
  if (0 <=? v) && (v <? 256) then Byte.of_N (Z.to_N v) else None.

End Py.

(** ** Methods: state and exceptions *)

Definition method (S A : Type) : Type := S → Py.outcome A * S.

Section Method.
Context {S : Type}.

#[export] Instance method_ret : MRet (method S) :=
  λ A v s, (Py.Normal v, s).

#[export] Instance method_bind : MBind (method S) :=
  λ A B k m s,
    match m s with
    | (Py.Normal v, s') => k v s'
    | (Py.Raise e, s') => (Py.Raise e, s')
    end.

Definition raise {A} (e : Py.exn) : method S A := λ s, (Py.Raise e, s).

Definition gets {A} (f : S → A) : method S A := λ s, (Py.Normal (f s), s).

Definition modify (f : S → S) : method S unit := λ s, (Py.Normal tt, f s).

(** [for _ in range(n): body] *)
Fixpoint repeat_n (n : nat) (body : method S unit) : method S unit :=
  match n with
  | O => mret tt
  | Datatypes.S n' => body ;; repeat_n n' body
  end.

(** [for i in r: body i] *)
Fixpoint for_each {I} (r : list I) (body : I → method S unit)
  : method S unit :=
  match r with
  | [] => mret tt
  | i :: r' => body i ;; for_each r' body
  end.
End Method.

(** ** The CPU *)

Module SimpleSNESCPU.

Record t : Type := mk {
  memory : list byte;
  pc : Z;
  a : Z;
  x : Z;
  y : Z;
  sp : Z;
  status : Z
}.

Definition set_memory (m : list byte) (s : t) : t :=
  mk m (pc s) (a s) (x s) (y s) (sp s) (status s).
Definition set_pc (v : Z) (s : t) : t :=
  mk (memory s) v (a s) (x s) (y s) (sp s) (status s).
Definition set_a (v : Z) (s : t) : t :=
  mk (memory s) (pc s) v (x s) (y s) (sp s) (status s).

(** The test program of [__init__]. *)
Definition test_program : list byte :=
  [xa9; x05; x8d; x00; x02; x4c; x00; x80].

(** [__init__]: a zeroed [bytearray(0x100000)], the registers, then the
    slice assignment [memory[0x8000:0x8003] = test_program]. *)
Definition init : t :=
  {| memory := Py.setslice (replicate (Z.to_nat 0x100000) x00)
                 0x8000 0x8003 test_program;
     pc := 0x8000; a := 0; x := 0; y := 0; sp := 0x0100; status := 0 |}.

(** [self.memory[i]] *)
Definition load (i : Z) : method t Z :=
  λ s, match Py.getitem (memory s) i with
       | Some b => (Py.Normal (Py.byte_to_Z b), s)
       | None => (Py.Raise Py.IndexError, s)
       end.

(** [self.memory[i] = v]: the value is converted first (CPython 3.11
    and later), then the index is checked. *)
Definition store (i v : Z) : method t unit :=
  λ s, match Py.byte_of_Z v with
       | None => (Py.Raise Py.ValueError, s)
       | Some b =>
         match Py.setitem (memory s) i b with
         | Some m => (Py.Normal tt, set_memory m s)
         | None => (Py.Raise Py.IndexError, s)
         end
       end.

(** [(hi << 8) | lo], the [address] of the absolute opcodes: the byte
    read first is the high one. *)
Definition address (hi lo : Z) : Z := Z.lor (Z.shiftl hi 8) lo.

Definition step : method t unit :=
  next_pc ← gets pc;
  opcode ← (p ← gets pc; load p);
  modify (set_pc (next_pc + 1));;
  if opcode =? 0xA9 then
    v ← (p ← gets pc; load p);
    modify (set_a v);;
    p ← gets pc; modify (set_pc (p + 1))
  else if (opcode =? 0x8D) || (opcode =? 0x4C) then
    hi ← (p ← gets pc; load p);
    lo ← (p ← gets pc; load (p + 1));
    let address := address hi lo in
    (if opcode =? 0x8D then
       v ← gets a; store address v
     else
       modify (set_pc address));;
    p ← gets pc; modify (set_pc (p + 2))
  else
    mret tt.

(** [n] calls of [step] in a row, as a caller's loop makes them. *)
Definition steps (n : nat) : method t unit := repeat_n n step.

End SimpleSNESCPU.

(** ** Images (PIL) and the canvas (tkinter), as far as the code uses them *)

Module Image.

Definition pixel : Type := Z * Z * Z.

(** An RGB image: its size and its pixels, row after row. *)
Record t : Type := mk {
  xsize : Z;
  ysize : Z;
  data : list pixel
}.

(** [Image.new("RGB", (w, h))]: all black; a negative size is a
    [ValueError]. *)
Definition new (w h : Z) : option t :=
  if (w <? 0) || (h <? 0) then None
  else Some (mk w h (replicate (Z.to_nat (w * h)) (0, 0, 0))).

(** A channel is stored in 8 bits, clipped. *)
Definition clip8 (v : Z) : Z := Z.max 0 (Z.min v 255).

Definition clip (c : pixel) : pixel :=
  let '(r, g, b) := c in (clip8 r, clip8 g, clip8 b).

(** The place of [(x, y)] in [data], a negative coordinate counting from
    the far edge; [None] stands for [IndexError]. *)
Definition offset (img : t) (x y : Z) : option nat :=
  let x' := if x <? 0 then x + xsize img else x in
  let y' := if y <? 0 then y + ysize img else y in
  if (0 <=? x') && (x' <? xsize img) && (0 <=? y') && (y' <? ysize img)
  then Some (Z.to_nat (y' * xsize img + x')) else None.

(** [pixels[x, y] = c] for [pixels = img.load()] *)
Definition putpixel (x y : Z) (c : pixel) : method t unit :=
  λ img, match offset img x y with
         | Some n =>
           (Py.Normal tt, mk (xsize img) (ysize img) (<[n := clip c]> (data img)))
         | None => (Py.Raise Py.IndexError, img)
         end.

(** [pixels[x, y]] *)
Definition getpixel (img : t) (x y : Z) : option pixel :=
  n ← offset img x y; data img !! n.

End Image.

Module Canvas.

(** An image item, as [create_image(x, y, image=..., anchor=NW)] makes. *)
Record item : Type := mk_item {
  item_x : Z;
  item_y : Z;
  item_image : Image.t
}.

(** A canvas is the list of its items, oldest first. *)
Definition t : Type := list item.

End Canvas.

(** ** The PPU *)

Module SNESPPU.

(** [canvas] is the canvas as this object sees it. *)
Record t : Type := mk {
  canvas : Canvas.t;
  ppu_image : option Image.t;
  width : Z;
  height : Z;
  framebuffer : list Z
}.

Definition set_canvas (c : Canvas.t) (p : t) : t :=
  mk c (ppu_image p) (width p) (height p) (framebuffer p).
Definition set_ppu_image (i : option Image.t) (p : t) : t :=
  mk (canvas p) i (width p) (height p) (framebuffer p).
Definition set_framebuffer (fb : list Z) (p : t) : t :=
  mk (canvas p) (ppu_image p) (width p) (height p) fb.

(** [__init__(canvas)] *)
Definition init (c : Canvas.t) : t :=
  {| canvas := c; ppu_image := None; width := 256; height := 224;
     framebuffer := replicate (Z.to_nat (256 * 224)) 0 |}.

(** [self.framebuffer[i]] *)
Definition pixel_at (self : t) (i : Z) : method Image.t Z :=
  λ img, match Py.getitem (framebuffer self) i with
         | Some v => (Py.Normal v, img)
         | None => (Py.Raise Py.IndexError, img)
         end.

(** The two loops of [render_frame]; they write the local image and only
    read [self]. *)
Definition paint (self : t) : method Image.t unit :=
  for_each (Py.range (height self)) (λ y,
    for_each (Py.range (width self)) (λ x,
      color ← pixel_at self (y * width self + x);
      Image.putpixel x y (color, color, color))).

(** The local image once the loops of [paint] have written their first
    [k] pixels: the grays of the first [k] intensities, then black. *)
Definition painted (self : t) (k : nat) : Image.t :=
  Image.mk (width self) (height self)
    (((λ v, (v, v, v)) <$> take k (framebuffer self))
     ++ replicate (length (framebuffer self) - k) (0, 0, 0)).

Definition render_frame : method t unit :=
  λ self,
    match Image.new (width self) (height self) with
    | None => (Py.Raise Py.ValueError, self)
    | Some img =>
      match paint self img with
      | (Py.Raise e, _) => (Py.Raise e, self)
      | (Py.Normal _, img') =>
        let self' := set_ppu_image (Some img') self in
        (Py.Normal tt,
         set_canvas (canvas self' ++ [Canvas.mk_item 0 0 img']) self')
      end
    end.

End SNESPPU.

(** ** The emulator *)

Module CitraLikeEmulator.

(** The attributes the emulation reads or writes.  [self.canvas] and
    [self.ppu.canvas] are one object, kept in [ppu]; [timers] are the
    pending [root.after(delay, self.emulate)] calls, by their delay. *)
Record t : Type := mk {
  status_label : string;
  cpu : SimpleSNESCPU.t;
  ppu : SNESPPU.t;
  is_running : bool;
  timers : list Z
}.

Definition set_status_label (v : string) (e : t) : t :=
  mk v (cpu e) (ppu e) (is_running e) (timers e).
Definition set_cpu (v : SimpleSNESCPU.t) (e : t) : t :=
  mk (status_label e) v (ppu e) (is_running e) (timers e).
Definition set_ppu (v : SNESPPU.t) (e : t) : t :=
  mk (status_label e) (cpu e) v (is_running e) (timers e).
Definition set_is_running (v : bool) (e : t) : t :=
  mk (status_label e) (cpu e) (ppu e) v (timers e).
Definition set_timers (v : list Z) (e : t) : t :=
  mk (status_label e) (cpu e) (ppu e) (is_running e) v.

(** [__init__], without the widgets. *)
Definition init : t :=
  {| status_label := "Ready"; cpu := SimpleSNESCPU.init;
     ppu := SNESPPU.init []; is_running := false; timers := [] |}.

(** A method of [self.cpu], called on the emulator. *)
Definition on_cpu {A} (m : method SimpleSNESCPU.t A) : method t A :=
  λ e, let '(r, c) := m (cpu e) in (r, set_cpu c e).

(** A method of [self.ppu], called on the emulator. *)
Definition on_ppu {A} (m : method SNESPPU.t A) : method t A :=
  λ e, let '(r, p) := m (ppu e) in (r, set_ppu p e).

(** [load_rom]: [file] is what the dialog and [open] give, the base name
    and the contents of the chosen file, or [None] when the dialog is
    cancelled; [f.read(0x20000)] is at most the first 0x20000 bytes. *)
Definition load_rom (file : option (string * list byte)) : method t unit :=
  match file with
  | None => mret tt
  | Some (name, contents) =>
    on_cpu (modify (λ c,
      SimpleSNESCPU.set_memory
        (Py.setslice (SimpleSNESCPU.memory c) 0x8000 0xC000
           (take (Z.to_nat 0x20000) contents)) c));;
    modify (set_status_label ("Loaded: " +:+ name))
  end.

(** [[i % 256 for i in range(n)]] *)
Definition test_pattern (n : Z) : list Z := (λ i, i mod 256) <$> Py.range n.

(** The test pattern of a 256 by 224 screen as an image, each intensity
    a gray pixel. *)
Definition test_image : Image.t :=
  Image.mk 256 224 ((λ v, (v, v, v)) <$> test_pattern (256 * 224)).

Definition emulate_single_frame : method t unit :=
  for_each (Py.range 100) (λ _, on_cpu SimpleSNESCPU.step);;
  modify (λ e, set_ppu
    (SNESPPU.set_framebuffer
       (test_pattern (SNESPPU.width (ppu e) * SNESPPU.height (ppu e)))
       (ppu e)) e);;
  on_ppu SNESPPU.render_frame.

Definition emulate : method t unit :=
  running ← gets is_running;
  if negb running then mret tt
  else
    emulate_single_frame;;
    modify (λ e, set_timers (timers e ++ [16]) e).

Definition start_emulation : method t unit :=
  modify (set_is_running true);;
  modify (set_status_label "Running");;
  emulate.

Definition pause_emulation : method t unit :=
  modify (set_is_running false);;
  modify (set_status_label "Paused").

Definition stop_emulation : method t unit :=
  modify (set_is_running false);;
  modify (set_status_label "Stopped");;
  modify (λ e, set_ppu (SNESPPU.set_canvas [] (ppu e)) e).

(** [n] calls of [emulate] in a row, as the scheduled callbacks make
    them. *)
Definition frames (n : nat) : method t unit := repeat_n n emulate.

End CitraLikeEmulator.

(** ** Programs in memory, and some concrete machines *)

(** [prog] occupies [m[addr:addr + len(prog)]]. *)
Definition installed_at (m : list byte) (addr : Z) (prog : list byte) : Prop :=
  take (length prog) (drop (Z.to_nat addr) m) = prog.

(** A CPU about to run the test program: [pc] at 0x8000, the program
    there, and zero bytes from 0x0082, where its jump lands, up to the
    program. *)
Definition at_test_program (s : SimpleSNESCPU.t) : Prop :=
  SimpleSNESCPU.pc s = 0x8000
  ∧ installed_at (SimpleSNESCPU.memory s) 0x8000 SimpleSNESCPU.test_program
  ∧ ∀ i, 0x0082 ≤ i < 0x8000 →
      Py.getitem (SimpleSNESCPU.memory s) i = Some x00.

(** The test program runs a lap of this many steps: the load, the store,
    the jump, and the 0x8000 - 0x0082 zero bytes stepped over. *)
Definition lap_steps : nat := Z.to_nat (3 + (0x8000 - 0x0082)).

(** The state a lap ends in: [pc] back at 0x8000, 5 in the accumulator
    and at 0x0002. *)
Definition after_lap (s : SimpleSNESCPU.t) : SimpleSNESCPU.t :=
  SimpleSNESCPU.set_pc 0x8000
    (SimpleSNESCPU.set_memory (<[2%nat := x05]> (SimpleSNESCPU.memory s))
       (SimpleSNESCPU.set_a 5 s)).

Module Examples.
Import CitraLikeEmulator.

(** A constructed emulator after [load_rom] of a file with content
    [rom]. *)
Definition loaded (rom : list byte) : CitraLikeEmulator.t :=
  (load_rom (Some ("test.sfc", rom)) init).2.

(** A ROM that jumps to its own first byte, high address byte first. *)
Definition jmp_self_rom : list byte := [x4c; x80; x00].

(** The CPU once that ROM is loaded. *)
Definition jmp_self_cpu : SimpleSNESCPU.t := cpu (loaded jmp_self_rom).

(** A ROM that starts with a byte that is no opcode of [step]. *)
Definition illegal_rom : list byte := [xff].

(** The CPU once that ROM is loaded. *)
Definition illegal_cpu : SimpleSNESCPU.t := cpu (loaded illegal_rom).

(** A constructed emulator whose [start_emulation] has just set
    [is_running]. *)
Definition started : CitraLikeEmulator.t := set_is_running true init.

(** A constructed CPU whose program counter stands behind the test
    program, on a zero byte. *)
Definition past_program : SimpleSNESCPU.t :=
  SimpleSNESCPU.set_pc 0x8008 SimpleSNESCPU.init.

(** A CPU whose program counter is past the end of a short memory. *)
Definition off_the_end : SimpleSNESCPU.t :=
  SimpleSNESCPU.mk [x00; x00] 2 0 0 0 0x0100 0.

(** A constructed CPU that has run its load and stands on the store. *)
Definition at_store : SimpleSNESCPU.t :=
  SimpleSNESCPU.set_pc 0x8002 (SimpleSNESCPU.set_a 5 SimpleSNESCPU.init).

(** A constructed CPU that stands on the jump. *)
Definition at_jump : SimpleSNESCPU.t :=
  SimpleSNESCPU.set_pc 0x8005 SimpleSNESCPU.init.

(** A CPU whose memory ends in the middle of a store instruction. *)
Definition cut_store : SimpleSNESCPU.t :=
  SimpleSNESCPU.mk [x00; x8d; x00] 1 0 0 0 0x0100 0.

(** A CPU on a store, with an accumulator that is no byte. *)
Definition wide_accumulator : SimpleSNESCPU.t :=
  SimpleSNESCPU.mk [x8d; x00; x03; x00] 0 256 0 0 0x0100 0.

(** A PPU of 2 by 2 pixels with the framebuffer [fb]. *)
Definition small_ppu (fb : list Z) : SNESPPU.t :=
  SNESPPU.mk [] None 2 2 fb.

(** A CPU with the memory, [pc] and [a] of a constructed one, and other
    values in the registers [x], [y], [sp] and [status]. *)
Definition other_registers : SimpleSNESCPU.t :=
  SimpleSNESCPU.mk (SimpleSNESCPU.memory SimpleSNESCPU.init)
    0x8000 0 7 9 0x01FF 1.

(** A running emulator in the middle of a run: the CPU on the store of
    the test program, one frame on the canvas, one callback scheduled. *)
Definition mid_run : CitraLikeEmulator.t :=
  CitraLikeEmulator.mk "Running" at_store
    (SNESPPU.mk [Canvas.mk_item 0 0 test_image] (Some test_image) 256 224
       (test_pattern (256 * 224)))
    true [16].

(** A constructed PPU whose framebuffer holds the test pattern, as
    [emulate_single_frame] leaves it. *)
Definition patterned_ppu : SNESPPU.t :=
  SNESPPU.set_framebuffer (test_pattern (256 * 224)) (SNESPPU.init []).

End Examples.

(** * Properties *)

(** ** Sequences and bytes *)

Section PyFacts.
Context {A : Type}.
Implicit Types (s : list A) (i : Z).

Lemma getitem_lookup s i :
  0 ≤ i → Py.getitem s i = s !! Z.to_nat i.
Proof.
  intros Hi. unfold Py.getitem, Py.index.
  destruct (i <? 0) eqn:E; [lia|]. by rewrite E.
Qed.

Lemma getitem_Some_lt s i v :
  0 ≤ i → Py.getitem s i = Some v → i < Z.of_nat (length s).
Proof.
  intros Hi. rewrite getitem_lookup by done.
  intros H%lookup_lt_Some. lia.
Qed.

Lemma setitem_insert s i v :
  0 ≤ i < Z.of_nat (length s) →
  Py.setitem s i v = Some (<[Z.to_nat i := v]> s).
Proof.
  intros Hi. unfold Py.setitem, Py.index.
  destruct (i <? 0) eqn:E; [lia|].
  destruct (0 <=? i) eqn:E1; [|lia].
  destruct (i <? Z.of_nat (length s)) eqn:E2; [done|lia].
Qed.

Lemma getitem_insert_ne s (n : nat) i v :
  0 ≤ i → Z.to_nat i ≠ n → Py.getitem (<[n := v]> s) i = Py.getitem s i.
Proof.
  intros Hi Hn. rewrite !getitem_lookup by done.
  by apply list_lookup_insert_ne.
Qed.

Lemma setitem_length s i v s' :
  Py.setitem s i v = Some s' → length s' = length s.
Proof.
  unfold Py.setitem. case_match; [|done].
  intros [= <-]. apply length_insert.
Qed.

Lemma setslice_length s lo hi data :
  0 ≤ lo ≤ hi → hi ≤ Z.of_nat (length s) →
  Z.of_nat (length (Py.setslice s lo hi data))
  = Z.of_nat (length s) - (hi - lo) + Z.of_nat (length data).
Proof.
  intros Hlo Hhi. unfold Py.setslice, Py.slice_bound.
  destruct (lo <? 0) eqn:E1; [lia|]. destruct (hi <? 0) eqn:E2; [lia|].
  rewrite !length_app, length_take, length_drop. lia.
Qed.
Lemma setslice_eq s lo hi data :
  0 ≤ lo ≤ hi → hi ≤ Z.of_nat (length s) →
  Py.setslice s lo hi data
  = take (Z.to_nat lo) s ++ data ++ drop (Z.to_nat hi) s.
Proof.
  intros Hlo Hhi. unfold Py.setslice, Py.slice_bound.
  destruct (lo <? 0) eqn:E1; [lia|]. destruct (hi <? 0) eqn:E2; [lia|].
  do 2 f_equal; [f_equal; lia|]. do 2 f_equal. lia.
Qed.

(** Reading below, inside and above an assigned slice. *)
Lemma getitem_setslice_before s lo hi data i :
  0 ≤ i < lo → lo ≤ hi → hi ≤ Z.of_nat (length s) →
  Py.getitem (Py.setslice s lo hi data) i = s !! Z.to_nat i.
Proof.
  intros Hi Hlo Hhi. rewrite setslice_eq, getitem_lookup by lia.
  rewrite lookup_app_l by (rewrite length_take; lia).
  apply lookup_take_lt. lia.
Qed.

Lemma getitem_setslice_data s lo hi data k b :
  0 ≤ lo ≤ hi → hi ≤ Z.of_nat (length s) → data !! k = Some b →
  Py.getitem (Py.setslice s lo hi data) (lo + Z.of_nat k) = Some b.
Proof.
  intros Hlo Hhi Hk. rewrite setslice_eq, getitem_lookup by lia.
  rewrite lookup_app_r by (rewrite length_take; lia).
  rewrite length_take.
  replace (Z.to_nat (lo + Z.of_nat k) - Z.to_nat lo `min` length s)%nat
    with k by lia.
  by apply lookup_app_l_Some.
Qed.

Lemma getitem_setslice_after s lo hi data k :
  0 ≤ lo ≤ hi → hi ≤ Z.of_nat (length s) →
  Py.getitem (Py.setslice s lo hi data)
    (lo + Z.of_nat (length data) + Z.of_nat k)
  = s !! (Z.to_nat hi + k)%nat.
Proof.
  intros Hlo Hhi. rewrite setslice_eq, getitem_lookup by lia.
  rewrite lookup_app_r by (rewrite length_take; lia).
  rewrite length_take, lookup_app_r by lia.
  rewrite lookup_drop. f_equal. lia.
Qed.
End PyFacts.

Lemma byte_to_Z_range b : 0 ≤ Py.byte_to_Z b < 256.
Proof.
  unfold Py.byte_to_Z. pose proof (Byte.to_N_bounded b). lia.
Qed.

Lemma byte_to_Z_inj b1 b2 : Py.byte_to_Z b1 = Py.byte_to_Z b2 → b1 = b2.
Proof.
  unfold Py.byte_to_Z. intros H%(inj Z.of_N).
  pose proof (Byte.of_to_N b1) as H1. rewrite H, Byte.of_to_N in H1.
  congruence.
Qed.

Lemma byte_of_to_Z b : Py.byte_of_Z (Py.byte_to_Z b) = Some b.
Proof.
  unfold Py.byte_of_Z. pose proof (byte_to_Z_range b).
  destruct (0 <=? Py.byte_to_Z b) eqn:E1; [|lia].
  destruct (Py.byte_to_Z b <? 256) eqn:E2; [|lia]. simpl.
  unfold Py.byte_to_Z. rewrite N2Z.id. apply Byte.of_to_N.
Qed.

(** ** One step of the CPU *)

Module CPUFacts.
Import SimpleSNESCPU.

Implicit Types (s : t) (b v hi lo : byte).

(** Running a method: unfold the monad down to matches on the state. *)
Ltac run :=
  unfold step, load, store, gets, modify, mbind, method_bind, mret,
    method_ret; cbn [fst snd pc a memory x y sp status set_pc set_a
    set_memory].

(** Deciding the branch once the opcode is a known byte. *)
Ltac opcode :=
  run;
  repeat match goal with
    | |- context [Py.byte_to_Z ?c =? ?n] =>
      let r := eval vm_compute in (Py.byte_to_Z c =? n) in
      change (Py.byte_to_Z c =? n) with r
    end;
  cbn [orb]; run.

Lemma opcode_eqb b (c : byte) :
  (Py.byte_to_Z b =? Py.byte_to_Z c) = bool_decide (b = c).
Proof.
  case_bool_decide as H; [subst; apply Z.eqb_refl|].
  apply Z.eqb_neq. intros E. by apply H, byte_to_Z_inj.
Qed.

Lemma lor_below_pow2 (u w n : Z) :
  0 < n → 0 ≤ u < 2 ^ n → 0 ≤ w < 2 ^ n → 0 ≤ Z.lor u w < 2 ^ n.
Proof.
  intros Hn Hu Hw.
  assert (0 ≤ Z.lor u w) as H0 by (apply Z.lor_nonneg; lia).
  split; [done|].
  assert (∀ z, 0 ≤ z < 2 ^ n → Z.log2 z < n) as Hlog.
  { intros z Hz. destruct (Z.eq_dec z 0) as [->|]; [simpl; lia|].
    apply Z.log2_lt_pow2; lia. }
  destruct (Z.eq_dec (Z.lor u w) 0) as [->|]; [lia|].
  apply Z.log2_lt_pow2; [lia|].
  rewrite Z.log2_lor by lia.
  pose proof (Hlog u Hu). pose proof (Hlog w Hw). lia.
Qed.

Lemma address_range hi lo :
  0 ≤ address (Py.byte_to_Z hi) (Py.byte_to_Z lo) < 0x10000.
Proof.
  unfold address.
  pose proof (byte_to_Z_range hi). pose proof (byte_to_Z_range lo).
  change 0x10000 with (2 ^ 16). apply lor_below_pow2; [lia| |].
  - rewrite Z.shiftl_mul_pow2 by lia. change (2 ^ 8) with 256.
    change (2 ^ 16) with 65536. lia.
  - change (2 ^ 16) with 65536. lia.
Qed.

Lemma step_lda s v :
  Py.getitem (memory s) (pc s) = Some xa9 →
  Py.getitem (memory s) (pc s + 1) = Some v →
  step s = (Py.Normal tt, set_pc (pc s + 2) (set_a (Py.byte_to_Z v) s)).
Proof.
  intros H0 H1. run. rewrite H0. opcode. rewrite H1. run.
  unfold set_pc, set_a; simpl. do 2 f_equal. lia.
Qed.

Lemma step_sta s hi lo b :
  Py.getitem (memory s) (pc s) = Some x8d →
  Py.getitem (memory s) (pc s + 1) = Some hi →
  Py.getitem (memory s) (pc s + 1 + 1) = Some lo →
  Py.byte_of_Z (a s) = Some b →
  address (Py.byte_to_Z hi) (Py.byte_to_Z lo) < Z.of_nat (length (memory s)) →
  step s = (Py.Normal tt,
            set_pc (pc s + 3)
              (set_memory
                 (<[Z.to_nat (address (Py.byte_to_Z hi) (Py.byte_to_Z lo)) := b]> (memory s)) s)).
Proof.
  intros H0 H1 H2 Ha Hlen. run. rewrite H0. opcode. rewrite H1. run.
  rewrite H2. run. rewrite Ha.
  rewrite setitem_insert by (pose proof (address_range hi lo); lia).
  unfold set_pc, set_memory; simpl. do 2 f_equal. lia.
Qed.

Lemma step_jmp s hi lo :
  Py.getitem (memory s) (pc s) = Some x4c →
  Py.getitem (memory s) (pc s + 1) = Some hi →
  Py.getitem (memory s) (pc s + 1 + 1) = Some lo →
  step s = (Py.Normal tt, set_pc (address (Py.byte_to_Z hi) (Py.byte_to_Z lo) + 2) s).
Proof.
  intros H0 H1 H2. run. rewrite H0. opcode. rewrite H1. run.
  rewrite H2. run. done.
Qed.

Lemma step_other s b :
  Py.getitem (memory s) (pc s) = Some b →
  b ∉ [xa9; x8d; x4c] →
  step s = (Py.Normal tt, set_pc (pc s + 1) s).
Proof.
  intros H0 Hb. run. rewrite H0. run.
  change 169 with (Py.byte_to_Z xa9). change 141 with (Py.byte_to_Z x8d).
  change 76 with (Py.byte_to_Z x4c). rewrite !opcode_eqb.
  repeat case_bool_decide; subst; try done; exfalso; apply Hb; repeat constructor.
Qed.


Lemma steps_S n s :
  steps (S n) s
  = match step s with
    | (Py.Normal _, s') => steps n s'
    | (Py.Raise e, s') => (Py.Raise e, s')
    end.
Proof. reflexivity. Qed.

Lemma steps_add n m s :
  steps (n + m) s
  = match steps n s with
    | (Py.Normal _, s') => steps m s'
    | (Py.Raise e, s') => (Py.Raise e, s')
    end.
Proof.
  revert s. induction n as [|n IH]; intros s; [reflexivity|].
  cbn [Nat.add]. rewrite !steps_S.
  destruct (step s) as [[[]|e] s']; [apply IH|reflexivity].
Qed.

(** A run of bytes that are no opcode is stepped over, one byte a step. *)
Lemma steps_over_other n s :
  (∀ k, (k < n)%nat →
     ∃ b, Py.getitem (memory s) (pc s + Z.of_nat k) = Some b
          ∧ b ∉ [xa9; x8d; x4c]) →
  steps n s = (Py.Normal tt, set_pc (pc s + Z.of_nat n) s).
Proof.
  revert s. induction n as [|n IH]; intros s H.
  - destruct s. unfold set_pc; cbn. do 2 f_equal. lia.
  - rewrite steps_S. destruct (H 0%nat) as (b & Hb & Hnot); [lia|].
    rewrite Z.add_0_r in Hb. rewrite (step_other s b) by done.
    rewrite IH.
    + unfold set_pc; cbn. do 2 f_equal. lia.
    + intros k Hk. cbn [memory pc set_pc].
      destruct (H (S k)) as (b' & Hb' & Hnot'); [lia|].
      exists b'. split; [|done]. rewrite <- Hb'. f_equal. lia.
Qed.

Lemma step_memory_length s :
  length (memory (step s).2) = length (memory s).
Proof.
  run. repeat (case_match; run; simplify_eq/=); try done.
  all: eauto using setitem_length.
Qed.

(** *** Programs installed in memory *)

Lemma installed_at_getitem m addr prog k b :
  installed_at m addr prog → 0 ≤ addr → prog !! k = Some b →
  Py.getitem m (addr + Z.of_nat k) = Some b.
Proof.
  unfold installed_at. intros Hm Haddr Hk.
  rewrite getitem_lookup by lia.
  assert (k < length prog)%nat as Hlt by (by eapply lookup_lt_Some).
  rewrite <- Hm in Hk. rewrite lookup_take_lt, lookup_drop in Hk by done.
  rewrite <- Hk. f_equal. lia.
Qed.

(** LDA immediate followed by STA absolute, two steps in one. *)
Lemma steps_lda_sta s v hi lo :
  Py.getitem (memory s) (pc s) = Some xa9 →
  Py.getitem (memory s) (pc s + 1) = Some v →
  Py.getitem (memory s) (pc s + 2) = Some x8d →
  Py.getitem (memory s) (pc s + 3) = Some hi →
  Py.getitem (memory s) (pc s + 4) = Some lo →
  address (Py.byte_to_Z hi) (Py.byte_to_Z lo) < Z.of_nat (length (memory s)) →
  steps 2 s
  = (Py.Normal tt,
     set_pc (pc s + 5)
       (set_memory
          (<[Z.to_nat (address (Py.byte_to_Z hi) (Py.byte_to_Z lo)) := v]>
             (memory s))
          (set_a (Py.byte_to_Z v) s))).
Proof.
  intros H0 H1 H2 H3 H4 Hlen.
  rewrite steps_S, (step_lda s v) by done.
  rewrite steps_S.
  rewrite (step_sta _ hi lo v); cbn [pc memory a set_pc set_a]; try done.
  - cbn [steps repeat_n]. unfold set_pc, set_memory, set_a; simpl.
    do 2 f_equal. lia.
  - by replace (pc s + 2 + 1) with (pc s + 3) by lia.
  - by replace (pc s + 2 + 1 + 1) with (pc s + 4) by lia.
  - apply byte_of_to_Z.
Qed.

Lemma sta_test_program_run s :
  pc s = 0x8000 →
  installed_at (memory s) 0x8000 [xa9; x05; x8d; x00; x02] →
  ∃ s', steps 2 s = (Py.Normal tt, s')
        ∧ Py.getitem (memory s') 0x0002 = Some x05
        ∧ Py.getitem (memory s') 0x0200 = Py.getitem (memory s) 0x0200.
Proof.
  intros Hpc Hprog.
  assert (0 ≤ 0x8000) as Haddr by lia.
  pose proof (λ k b, installed_at_getitem _ _ _ k b Hprog Haddr) as Hget.
  pose proof (Hget 0%nat _ eq_refl) as H0.
  pose proof (Hget 1%nat _ eq_refl) as H1.
  pose proof (Hget 2%nat _ eq_refl) as H2.
  pose proof (Hget 3%nat _ eq_refl) as H3.
  pose proof (Hget 4%nat _ eq_refl) as H4.
  cbn [Z.of_nat Pos.of_succ_nat Pos.succ Z.add Pos.add] in H0, H1, H2, H3, H4.
  assert (0x8000 < Z.of_nat (length (memory s))) as Hlen.
  { eapply getitem_Some_lt; [|exact H0]. lia. }
  eexists. split.
  - apply (steps_lda_sta s x05 x00 x02); rewrite ?Hpc; try done.
    change (address (Py.byte_to_Z x00) (Py.byte_to_Z x02)) with 2. lia.
  - change (address (Py.byte_to_Z x00) (Py.byte_to_Z x02)) with 2.
    cbn [memory set_pc set_memory set_a]. rewrite !getitem_lookup by lia.
    split.
    + apply list_lookup_insert_eq. lia.
    + by apply list_lookup_insert_ne.
Qed.

Lemma installed_at_intro m addr prog :
  0 ≤ addr →
  (∀ k b, prog !! k = Some b → Py.getitem m (addr + Z.of_nat k) = Some b) →
  installed_at m addr prog.
Proof.
  intros Haddr Hget. unfold installed_at. apply list_eq. intros k.
  destruct (prog !! k) as [b|] eqn:Hk.
  - assert (k < length prog)%nat by (by eapply lookup_lt_Some).
    rewrite lookup_take_lt, lookup_drop by done.
    rewrite <- (Hget k b Hk), getitem_lookup by lia. f_equal. lia.
  - apply lookup_take_ge. by apply lookup_ge_None.
Qed.

(** *** The memory of a constructed CPU, and of one with a ROM loaded *)

Lemma init_memory_length : Z.of_nat (length (memory init)) = 0x100005.
Proof.
  unfold init; cbn [memory].
  rewrite setslice_length; rewrite ?length_replicate; simpl length; lia.
Qed.

Lemma init_memory_program k b :
  test_program !! k = Some b →
  Py.getitem (memory init) (0x8000 + Z.of_nat k) = Some b.
Proof.
  intros Hk. unfold init; cbn [memory].
  apply getitem_setslice_data; [lia|rewrite length_replicate; lia|done].
Qed.

Lemma init_memory_below i :
  0 ≤ i < 0x8000 → Py.getitem (memory init) i = Some x00.
Proof.
  intros Hi. unfold init; cbn [memory].
  rewrite getitem_setslice_before by (rewrite ?length_replicate; lia).
  apply lookup_replicate_2. lia.
Qed.

Lemma init_memory_above i :
  0x8008 ≤ i < 0x100005 → Py.getitem (memory init) i = Some x00.
Proof.
  intros Hi. unfold init; cbn [memory].
  replace i with (0x8000 + Z.of_nat (length test_program)
                  + Z.of_nat (Z.to_nat (i - 0x8008)))
    by (simpl length; lia).
  rewrite getitem_setslice_after by (rewrite ?length_replicate; lia).
  apply lookup_replicate_2. lia.
Qed.

Lemma loaded_cpu rom :
  CitraLikeEmulator.cpu (Examples.loaded rom)
  = set_memory
      (Py.setslice (memory init) 0x8000 0xC000 (take (Z.to_nat 0x20000) rom))
      init.
Proof. reflexivity. Qed.

Lemma loaded_memory_rom rom k b :
  take (Z.to_nat 0x20000) rom !! k = Some b →
  Py.getitem (memory (CitraLikeEmulator.cpu (Examples.loaded rom)))
    (0x8000 + Z.of_nat k) = Some b.
Proof.
  intros Hk. rewrite loaded_cpu; cbn [memory set_memory].
  apply getitem_setslice_data; [lia|rewrite init_memory_length; lia|done].
Qed.

(** The constructed CPU holds the first five bytes of its test program,
    the load and the store, at 0x8000. *)
Lemma init_installed_lda_sta :
  installed_at (memory init) 0x8000 [xa9; x05; x8d; x00; x02].
Proof.
  apply installed_at_intro; [lia|]. intros k b Hk.
  apply init_memory_program.
  change test_program with ([xa9; x05; x8d; x00; x02] ++ [x4c; x00; x80]).
  by apply lookup_app_l_Some.
Qed.

Lemma not_an_opcode_0x00 : x00 ∉ [xa9; x8d; x4c].
Proof.
  intros H. repeat (apply elem_of_cons in H as [H|H]; [discriminate|]).
  by apply elem_of_nil in H.
Qed.

Lemma steps_0 s : steps 0 s = (Py.Normal tt, s).
Proof. reflexivity. Qed.

(** The hundred steps of a frame over the test program: the load, the
    store to 0x0002, the jump that lands at 0x0082, and then 97 zero bytes
    stepped over. *)
Lemma test_program_frame s :
  pc s = 0x8000 →
  installed_at (memory s) 0x8000 test_program →
  (∀ i, 0x0082 ≤ i < 0x0082 + 97 → Py.getitem (memory s) i = Some x00) →
  ∃ s', steps 100 s = (Py.Normal tt, s')
        ∧ pc s' = 0x0082 + 97 ∧ a s' = 5
        ∧ Py.getitem (memory s') 0x0002 = Some x05.
Proof.
  intros Hpc Hprog Hzero.
  assert (0 ≤ 0x8000) as Haddr by lia.
  pose proof (λ k b, installed_at_getitem _ _ _ k b Hprog Haddr) as Hget.
  assert (0x8007 < Z.of_nat (length (memory s))) as Hlen.
  { eapply getitem_Some_lt; [|exact (Hget 7%nat x80 eq_refl)]. lia. }
  set (s2 := set_pc 0x8005
               (set_memory (<[2%nat := x05]> (memory s)) (set_a 5 s))).
  assert (steps 2 s = (Py.Normal tt, s2)) as H2.
  { rewrite (steps_lda_sta s x05 x00 x02); rewrite ?Hpc.
    - reflexivity.
    - exact (Hget 0%nat xa9 eq_refl).
    - exact (Hget 1%nat x05 eq_refl).
    - exact (Hget 2%nat x8d eq_refl).
    - exact (Hget 3%nat x00 eq_refl).
    - exact (Hget 4%nat x02 eq_refl).
    - change (address (Py.byte_to_Z x00) (Py.byte_to_Z x02)) with 2. lia. }
  assert (step s2 = (Py.Normal tt, set_pc 0x0082 s2)) as H3.
  { rewrite (step_jmp s2 x00 x80); [reflexivity|..];
      subst s2; cbn [pc memory set_pc set_memory set_a];
      rewrite getitem_insert_ne by lia.
    - exact (Hget 5%nat x4c eq_refl).
    - exact (Hget 6%nat x00 eq_refl).
    - exact (Hget 7%nat x80 eq_refl). }
  assert (steps 97 (set_pc 0x0082 s2)
          = (Py.Normal tt, set_pc (0x0082 + 97) (set_pc 0x0082 s2))) as H97.
  { rewrite steps_over_other; [reflexivity|].
    intros k Hk. exists x00. split; [|apply not_an_opcode_0x00].
    subst s2; cbn [pc memory set_pc set_memory set_a].
    rewrite getitem_insert_ne by lia. apply Hzero. lia. }
  change 100%nat with (2 + (1 + 97))%nat.
  rewrite steps_add, H2, steps_add, steps_S, H3, steps_0, H97.
  eexists. split; [reflexivity|].
  subst s2; cbn [pc a memory set_pc set_memory set_a].
  split; [reflexivity|]. split; [reflexivity|].
  rewrite getitem_lookup by lia. apply list_lookup_insert_eq. lia.
Qed.

(** So from construction the hundred steps of a frame all return. *)
Lemma constructed_frame_steps_return :
  ∃ s', steps 100 init = (Py.Normal tt, s')
        ∧ pc s' = 0x0082 + 97 ∧ a s' = 5
        ∧ Py.getitem (memory s') 0x0002 = Some x05.
Proof.
  apply test_program_frame.
  - reflexivity.
  - apply installed_at_intro; [lia|]. exact init_memory_program.
  - intros i Hi. apply init_memory_below. lia.
Qed.

(** *** The registers a step never reads *)

(** A step reads the memory, [pc] and [a] only: with other values in [x],
    [y], [sp] and [status] it has the same outcome, leaves the same
    memory, [pc] and [a], and those other values where they were. *)
Lemma step_registers s x' y' sp' st' :
  step (mk (memory s) (pc s) (a s) x' y' sp' st')
  = ((step s).1,
     mk (memory (step s).2) (pc (step s).2) (a (step s).2) x' y' sp' st').
Proof.
  run. repeat (case_match; run; simplify_eq/=); done.
Qed.

Lemma steps_registers n s x' y' sp' st' :
  steps n (mk (memory s) (pc s) (a s) x' y' sp' st')
  = ((steps n s).1,
     mk (memory (steps n s).2) (pc (steps n s).2) (a (steps n s).2)
       x' y' sp' st').
Proof.
  revert s. induction n as [|n IH]; intros s; [reflexivity|].
  rewrite !steps_S, step_registers.
  destruct (step s) as [[[]|e] s']; cbn [fst snd]; [apply IH|reflexivity].
Qed.

(** *** What a step does *)

(** C9: whatever the state and the opcode, and whether the call returns or
    raises, a call of [step] leaves the registers [x], [y], [sp] and
    [status] as they were; what it can change is [pc], [a] and the
    memory. *)
Theorem step_preserves_x_y_sp_status s :
  x (step s).2 = x s ∧ y (step s).2 = y s
  ∧ sp (step s).2 = sp s ∧ status (step s).2 = status s.
Proof.
  run. repeat (case_match; run; simplify_eq/=); done.
Qed.

(** C5: when the byte at [pc] is 0xA9 and the byte after it is [v], a call
    of [step] returns with [a] equal to [v] and [pc] advanced by 2. *)
Theorem lda_immediate s v :
  Py.getitem (memory s) (pc s) = Some xa9 →
  Py.getitem (memory s) (pc s + 1) = Some v →
  ∃ s', step s = (Py.Normal tt, s')
        ∧ a s' = Py.byte_to_Z v ∧ pc s' = pc s + 2.
Proof.
  intros H0 H1. eexists. split; [by apply step_lda|done].
Qed.

Lemma lda_immediate_witness :
  ∃ s', step init = (Py.Normal tt, s') ∧ a s' = 5 ∧ pc s' = 0x8002.
Proof.
  refine (lda_immediate init x05 _ _).
  - exact (init_memory_program 0 xa9 eq_refl).
  - exact (init_memory_program 1 x05 eq_refl).
Defined.

(** C6: two CPUs whose memories, [pc] and [a] agree make the same [n]
    calls of [step]: the same outcome, the same final memory, the same
    final [pc] and [a]; and each of [x], [y], [sp] and [status] that agreed
    at the start agrees at the end.  So two CPUs with identical memory
    contents and identical registers end with identical memory and
    registers, and the registers a step never reads need not even agree
    for the memory, [pc] and [a] to. *)
Theorem steps_deterministic n s1 s2 :
  memory s1 = memory s2 → pc s1 = pc s2 → a s1 = a s2 →
  (steps n s1).1 = (steps n s2).1
  ∧ memory (steps n s1).2 = memory (steps n s2).2
  ∧ pc (steps n s1).2 = pc (steps n s2).2
  ∧ a (steps n s1).2 = a (steps n s2).2
  ∧ (x s1 = x s2 → x (steps n s1).2 = x (steps n s2).2)
  ∧ (y s1 = y s2 → y (steps n s1).2 = y (steps n s2).2)
  ∧ (sp s1 = sp s2 → sp (steps n s1).2 = sp (steps n s2).2)
  ∧ (status s1 = status s2 →
     status (steps n s1).2 = status (steps n s2).2).
Proof.
  intros Hm Hpc Ha.
  pose proof (steps_registers n s1 (x s1) (y s1) (sp s1) (status s1)) as H1.
  pose proof (steps_registers n s1 (x s2) (y s2) (sp s2) (status s2)) as H2.
  rewrite Hm, Hpc, Ha in H2 at 1.
  replace (mk (memory s1) (pc s1) (a s1) (x s1) (y s1) (sp s1) (status s1))
    with s1 in H1 by (by destruct s1).
  replace (mk (memory s2) (pc s2) (a s2) (x s2) (y s2) (sp s2) (status s2))
    with s2 in H2 by (by destruct s2).
  rewrite H2. cbn [fst snd memory pc a x y sp status].
  apply (f_equal snd) in H1. cbn [snd] in H1.
  repeat split; try done; intros <-; by rewrite H1 at 1.
Qed.

Lemma steps_deterministic_witness :
  (steps 100 init).1 = (steps 100 Examples.other_registers).1
  ∧ memory (steps 100 init).2 = memory (steps 100 Examples.other_registers).2
  ∧ pc (steps 100 init).2 = pc (steps 100 Examples.other_registers).2
  ∧ a (steps 100 init).2 = a (steps 100 Examples.other_registers).2
  ∧ (x init = x Examples.other_registers →
     x (steps 100 init).2 = x (steps 100 Examples.other_registers).2)
  ∧ (y init = y Examples.other_registers →
     y (steps 100 init).2 = y (steps 100 Examples.other_registers).2)
  ∧ (sp init = sp Examples.other_registers →
     sp (steps 100 init).2 = sp (steps 100 Examples.other_registers).2)
  ∧ (status init = status Examples.other_registers →
     status (steps 100 init).2
     = status (steps 100 Examples.other_registers).2).
Proof.
  exact (steps_deterministic 100 init Examples.other_registers
           eq_refl eq_refl eq_refl).
Defined.

(** C10: when the byte at [pc] is none of 0xA9, 0x8D and 0x4C, a call of
    [step] returns without raising, with [pc] advanced by 1 and every
    other register and the whole memory as before. *)
Theorem other_opcode_advances_pc s b :
  Py.getitem (memory s) (pc s) = Some b →
  b ∉ [xa9; x8d; x4c] →
  ∃ s', step s = (Py.Normal tt, s')
        ∧ pc s' = pc s + 1 ∧ a s' = a s ∧ x s' = x s ∧ y s' = y s
        ∧ sp s' = sp s ∧ status s' = status s ∧ memory s' = memory s.
Proof.
  intros H0 Hb. eexists. split; [by eapply step_other|done].
Qed.

Lemma other_opcode_advances_pc_witness :
  ∃ s', step Examples.past_program = (Py.Normal tt, s')
        ∧ pc s' = pc Examples.past_program + 1
        ∧ a s' = a Examples.past_program ∧ x s' = x Examples.past_program
        ∧ y s' = y Examples.past_program ∧ sp s' = sp Examples.past_program
        ∧ status s' = status Examples.past_program
        ∧ memory s' = memory Examples.past_program.
Proof.
  refine (other_opcode_advances_pc Examples.past_program x00 _ _).
  - apply init_memory_above. cbn. lia.
  - intros H. repeat (apply elem_of_cons in H as [H|H]; [discriminate|]).
    by apply elem_of_nil in H.
Defined.

(** C2, as amended: with [0xA9, 0x05, 0x8D, 0x00, 0x02] at 0x8000 and [pc]
    at 0x8000, two calls of [step] return and the byte at 0x0002 then
    reads 5: the operand bytes 0x00, 0x02 are taken high byte first.  The
    byte at 0x0200 is what it was before. *)
Theorem sta_stores_at_0x0002 s :
  pc s = 0x8000 →
  installed_at (memory s) 0x8000 [xa9; x05; x8d; x00; x02] →
  ∃ s', steps 2 s = (Py.Normal tt, s')
        ∧ Py.getitem (memory s') 0x0002 = Some x05
        ∧ Py.getitem (memory s') 0x0200 = Py.getitem (memory s) 0x0200.
Proof. apply sta_test_program_run. Qed.

Lemma sta_stores_at_0x0002_witness :
  ∃ s', steps 2 init = (Py.Normal tt, s')
        ∧ Py.getitem (memory s') 0x0002 = Some x05
        ∧ Py.getitem (memory s') 0x0200 = Py.getitem (memory init) 0x0200.
Proof.
  exact (sta_stores_at_0x0002 init eq_refl init_installed_lda_sta).
Defined.

(** C2, as stated, fails on the constructed CPU, whose memory holds that
    program at 0x8000: after two steps the byte at 0x0200 reads 0, and the
    5 is at 0x0002. *)
Lemma sta_test_program_leaves_0x0200 :
  pc init = 0x8000
  ∧ installed_at (memory init) 0x8000 [xa9; x05; x8d; x00; x02]
  ∧ ∃ s', steps 2 init = (Py.Normal tt, s')
          ∧ Py.getitem (memory s') 0x0200 = Some x00
          ∧ Py.byte_to_Z x00 ≠ 5
          ∧ Py.getitem (memory s') 0x0002 = Some x05.
Proof.
  split; [reflexivity|]. split; [exact init_installed_lda_sta|].
  destruct (sta_test_program_run init eq_refl init_installed_lda_sta)
    as (s' & Hs & H2 & H200).
  exists s'. split; [exact Hs|].
  split; [rewrite H200; apply init_memory_below; lia|].
  split; [discriminate|exact H2].
Qed.

(** C1, on the ROM [0x4C, 0x80, 0x00] loaded at 0x8000 with [pc] at
    0x8000: the step returns with [pc] at 0x8002, two past the target,
    since [pc += 2] runs after the jump has set [pc]. *)
Theorem jmp_self_lands_at_0x8002 :
  pc Examples.jmp_self_cpu = 0x8000
  ∧ installed_at (memory Examples.jmp_self_cpu) 0x8000 [x4c; x80; x00]
  ∧ address (Py.byte_to_Z x80) (Py.byte_to_Z x00) = 0x8000
  ∧ step Examples.jmp_self_cpu
    = (Py.Normal tt, set_pc 0x8002 Examples.jmp_self_cpu).
Proof.
  assert (∀ k b, Examples.jmp_self_rom !! k = Some b →
            Py.getitem (memory Examples.jmp_self_cpu) (0x8000 + Z.of_nat k)
            = Some b) as Hrom
    by (intros k b Hk; apply loaded_memory_rom; exact Hk).
  split; [reflexivity|]. split; [by apply installed_at_intro|].
  split; [reflexivity|].
  rewrite (step_jmp _ x80 x00); [reflexivity|..].
  - exact (Hrom 0%nat x4c eq_refl).
  - exact (Hrom 1%nat x80 eq_refl).
  - exact (Hrom 2%nat x00 eq_refl).
Qed.

(** C3, as amended: when the byte at [pc] is none of 0xA9, 0x8D and 0x4C,
    [step] raises nothing, there being no illegal-opcode check; it returns
    with [pc] one past that byte and nothing else changed. *)
Theorem unknown_opcode_raises_nothing s b :
  Py.getitem (memory s) (pc s) = Some b →
  b ∉ [xa9; x8d; x4c] →
  (∀ e, (step s).1 ≠ Py.Raise e) ∧ (step s).2 = set_pc (pc s + 1) s.
Proof.
  intros H0 Hb. rewrite (step_other s b) by done. done.
Qed.

Lemma not_an_opcode_0xff : xff ∉ [xa9; x8d; x4c].
Proof.
  intros H. repeat (apply elem_of_cons in H as [H|H]; [discriminate|]).
  by apply elem_of_nil in H.
Qed.

Lemma unknown_opcode_raises_nothing_witness :
  (∀ e, (step Examples.illegal_cpu).1 ≠ Py.Raise e)
  ∧ (step Examples.illegal_cpu).2
    = set_pc (pc Examples.illegal_cpu + 1) Examples.illegal_cpu.
Proof.
  refine (unknown_opcode_raises_nothing Examples.illegal_cpu xff _ _).
  - exact (loaded_memory_rom Examples.illegal_rom 0 xff eq_refl).
  - apply not_an_opcode_0xff.
Defined.

(** C3, as stated, fails on the ROM [0xFF] loaded at 0x8000: the step
    returns normally and has moved [pc] to 0x8001. *)
Lemma illegal_opcode_0xff_is_stepped_over :
  pc Examples.illegal_cpu = 0x8000
  ∧ Py.getitem (memory Examples.illegal_cpu) 0x8000 = Some xff
  ∧ ∃ s', step Examples.illegal_cpu = (Py.Normal tt, s') ∧ pc s' = 0x8001.
Proof.
  split; [reflexivity|].
  split; [exact (loaded_memory_rom Examples.illegal_rom 0 xff eq_refl)|].
  eexists. split.
  - apply (step_other _ xff); [|apply not_an_opcode_0xff].
    exact (loaded_memory_rom Examples.illegal_rom 0 xff eq_refl).
  - reflexivity.
Qed.

(** C4, on construction and on loading: the constructor's slice
    assignment puts 8 bytes where 3 were, so the memory of a constructed
    CPU has 0x100005 bytes, not 0x100000; and [load_rom] of an empty file
    takes 0x4000 bytes out of it. *)
Theorem constructed_memory_length :
  Z.of_nat (length (memory init)) = 0x100005
  ∧ Z.of_nat (length (memory (CitraLikeEmulator.cpu (Examples.loaded []))))
    = 0x100005 - 0x4000.
Proof.
  pose proof init_memory_length as Hinit.
  split; [exact Hinit|].
  rewrite loaded_cpu. cbn [memory set_memory take].
  rewrite setslice_length by lia. rewrite Hinit. reflexivity.
Qed.

End CPUFacts.

(** ** Rendering *)

Section Paint.
Import SNESPPU.

Variable self : SNESPPU.t.
Hypothesis Hw : 0 ≤ width self.
Hypothesis Hh : 0 ≤ height self.
Hypothesis Hlen :
  Z.of_nat (length (framebuffer self)) = width self * height self.
Hypothesis Hrange : Forall (λ v, 0 ≤ v ≤ 255) (framebuffer self).

Lemma clip8_id v : 0 ≤ v ≤ 255 → Image.clip8 v = v.
Proof. unfold Image.clip8. lia. Qed.

(** Writing pixel number [k] extends what is painted by one. *)
Lemma painted_insert k v :
  framebuffer self !! k = Some v →
  <[k := (v, v, v)]> (Image.data (painted self k))
  = Image.data (painted self (S k)).
Proof.
  intros Hk. assert (k < length (framebuffer self))%nat as Hlt
    by (by eapply lookup_lt_Some).
  unfold painted; cbn [Image.data].
  rewrite insert_app_r_alt; rewrite length_fmap, length_take; [|lia].
  replace (k - k `min` length (framebuffer self))%nat with 0%nat by lia.
  replace (length (framebuffer self) - k)%nat
    with (S (length (framebuffer self) - S k)) by lia.
  rewrite (take_S_r _ _ v) by done.
  rewrite fmap_app, <- app_assoc. reflexivity.
Qed.

(** The body of the inner loop at column [x] of row [y]. *)
Lemma paint_pixel (X Y : nat) :
  Z.of_nat X < width self → Z.of_nat Y < height self →
  (color ← pixel_at self (Z.of_nat Y * width self + Z.of_nat X);
   Image.putpixel (Z.of_nat X) (Z.of_nat Y) (color, color, color))
    (painted self (Y * Z.to_nat (width self) + X))
  = (Py.Normal tt, painted self (S (Y * Z.to_nat (width self) + X))).
Proof.
  intros HX HY.
  assert (Z.to_nat (Z.of_nat Y * width self + Z.of_nat X)
          = (Y * Z.to_nat (width self) + X)%nat) as Hk by nia.
  assert (Z.of_nat Y * width self + Z.of_nat X
          < Z.of_nat (length (framebuffer self))) as Hin by nia.
  destruct (lookup_lt_is_Some_2 (framebuffer self)
              (Y * Z.to_nat (width self) + X)) as [v Hv]; [nia|].
  assert (0 ≤ v ≤ 255) as Hv255
    by (by eapply (proj1 (Forall_lookup _ _) Hrange)).
  unfold mbind, method_bind, pixel_at.
  rewrite getitem_lookup, Hk, Hv by lia.
  unfold Image.putpixel, Image.offset.
  cbn [Image.xsize Image.ysize painted].
  destruct (Z.of_nat X <? 0) eqn:E1; [lia|].
  destruct (Z.of_nat Y <? 0) eqn:E2; [lia|].
  destruct (0 <=? Z.of_nat X) eqn:E3; [|lia].
  destruct (Z.of_nat X <? width self) eqn:E4; [|lia].
  destruct (0 <=? Z.of_nat Y) eqn:E5; [|lia].
  destruct (Z.of_nat Y <? height self) eqn:E6; [|lia].
  cbn [andb]. rewrite Hk. unfold Image.clip. rewrite !clip8_id by done.
  f_equal. fold (painted self (Y * Z.to_nat (width self) + X)).
  rewrite (painted_insert _ v) by done. reflexivity.
Qed.

(** The inner loop, from column [X0] on. *)
Lemma paint_row_from (Y cnt X0 : nat) :
  Z.of_nat Y < height self →
  (X0 + cnt)%nat = Z.to_nat (width self) →
  for_each (Z.of_nat <$> seq X0 cnt) (λ x,
    color ← pixel_at self (Z.of_nat Y * width self + x);
    Image.putpixel x (Z.of_nat Y) (color, color, color))
    (painted self (Y * Z.to_nat (width self) + X0))
  = (Py.Normal tt, painted self (Y * Z.to_nat (width self) + X0 + cnt)).
Proof.
  intros HY. revert X0. induction cnt as [|cnt IH]; intros X0 HX.
  - cbn. by rewrite Nat.add_0_r.
  - cbn [seq fmap list_fmap for_each]. unfold mbind at 1, method_bind at 1.
    rewrite paint_pixel by lia.
    replace (S (Y * Z.to_nat (width self) + X0))
      with (Y * Z.to_nat (width self) + S X0)%nat by lia.
    rewrite IH by lia. do 2 f_equal. lia.
Qed.

(** The outer loop, from row [Y0] on. *)
Lemma paint_rows_from (cnt Y0 : nat) :
  (Y0 + cnt)%nat = Z.to_nat (height self) →
  for_each (Z.of_nat <$> seq Y0 cnt) (λ y,
    for_each (Py.range (width self)) (λ x,
      color ← pixel_at self (y * width self + x);
      Image.putpixel x y (color, color, color)))
    (painted self (Y0 * Z.to_nat (width self)))
  = (Py.Normal tt, painted self ((Y0 + cnt) * Z.to_nat (width self))).
Proof.
  revert Y0. induction cnt as [|cnt IH]; intros Y0 HY.
  - cbn. by rewrite Nat.add_0_r.
  - cbn [seq fmap list_fmap for_each]. unfold mbind at 1, method_bind at 1.
    unfold Py.range.
    pose proof (paint_row_from Y0 (Z.to_nat (width self)) 0) as Hrow.
    rewrite Nat.add_0_r in Hrow. rewrite Hrow by lia.
    replace (Y0 * Z.to_nat (width self) + Z.to_nat (width self))%nat
      with (S Y0 * Z.to_nat (width self))%nat by lia.
    fold (Py.range (width self)). rewrite IH by lia. do 2 f_equal. lia.
Qed.

Lemma paint_all :
  paint self (painted self 0)
  = (Py.Normal tt,
     Image.mk (width self) (height self)
       ((λ v, (v, v, v)) <$> framebuffer self)).
Proof.
  unfold paint, Py.range at 1.
  pose proof (paint_rows_from (Z.to_nat (height self)) 0 eq_refl) as H.
  cbn [Nat.mul Nat.add] in H. rewrite H. f_equal.
  unfold painted. f_equal.
  rewrite take_ge by nia.
  replace (length (framebuffer self)
           - Z.to_nat (height self) * Z.to_nat (width self))%nat
    with 0%nat by nia.
  apply app_nil_r.
Qed.

Lemma new_is_painted_0 :
  Image.new (width self) (height self) = Some (painted self 0).
Proof.
  unfold Image.new, painted.
  destruct (width self <? 0) eqn:E1; [lia|].
  destruct (height self <? 0) eqn:E2; [lia|]. cbn [orb].
  rewrite take_0, Nat.sub_0_r. cbn [fmap list_fmap app].
  do 3 f_equal. lia.
Qed.

(** What [render_frame] does to a PPU whose framebuffer has the size of
    the screen and holds 8-bit intensities. *)
Lemma render_frame_result :
  render_frame self
  = (Py.Normal tt,
     let img := Image.mk (width self) (height self)
                  ((λ v, (v, v, v)) <$> framebuffer self) in
     set_canvas (canvas self ++ [Canvas.mk_item 0 0 img])
       (set_ppu_image (Some img) self)).
Proof.
  unfold render_frame. rewrite new_is_painted_0, paint_all. reflexivity.
Qed.

End Paint.

Module PPUFacts.
Import SNESPPU.

(** A pixel of a rendered image, by the index of its intensity. *)
Lemma getpixel_row_major (w h : Z) (fb : list Z) (i v : Z) :
  0 < w → Z.of_nat (length fb) = w * h →
  0 ≤ i → Py.getitem fb i = Some v →
  Image.getpixel (Image.mk w h ((λ v, (v, v, v)) <$> fb)) (i `mod` w) (i `div` w)
  = Some (v, v, v).
Proof.
  intros Hw Hlen Hi Hv.
  pose proof (getitem_Some_lt _ _ _ Hi Hv) as Hlt.
  rewrite getitem_lookup in Hv by done.
  pose proof (Z.mod_pos_bound i w Hw) as Hmod.
  pose proof (Z.div_pos i w Hi Hw) as Hdiv.
  assert (i `div` w < h) as Hdivh by (apply Z.div_lt_upper_bound; lia).
  unfold Image.getpixel, Image.offset; cbn [Image.xsize Image.ysize
    Image.data].
  destruct (i `mod` w <? 0) eqn:E1; [lia|].
  destruct (i `div` w <? 0) eqn:E2; [lia|].
  destruct (0 <=? i `mod` w) eqn:E3; [|lia].
  destruct (i `mod` w <? w) eqn:E4; [|lia].
  destruct (0 <=? i `div` w) eqn:E5; [|lia].
  destruct (i `div` w <? h) eqn:E6; [|lia].
  cbn. replace (i `div` w * w + i `mod` w) with i
    by (rewrite (Z.div_mod i w) at 1; lia).
  rewrite list_lookup_fmap, Hv. reflexivity.
Qed.

(** C8: on a PPU of the constructed size 256 by 224 whose framebuffer has
    one 8-bit intensity per pixel, [render_frame] returns, leaves the
    framebuffer as it was, and makes a 256 by 224 image whose pixel at
    [(i % 256, i // 256)] is [(v, v, v)] for the intensity [v] at index
    [i]; a second call with the framebuffer untouched makes the same
    image again. *)
Theorem render_frame_reads_framebuffer p :
  width p = 256 → height p = 224 →
  Z.of_nat (length (framebuffer p)) = 256 * 224 →
  Forall (λ v, 0 ≤ v ≤ 255) (framebuffer p) →
  ∃ p' img,
    render_frame p = (Py.Normal tt, p')
    ∧ framebuffer p' = framebuffer p
    ∧ ppu_image p' = Some img
    ∧ Image.xsize img = 256 ∧ Image.ysize img = 224
    ∧ Z.of_nat (length (Image.data img)) = 256 * 224
    ∧ (∀ i v, 0 ≤ i → Py.getitem (framebuffer p) i = Some v →
         Image.getpixel img (i `mod` 256) (i `div` 256) = Some (v, v, v))
    ∧ ∃ p'', render_frame p' = (Py.Normal tt, p'')
             ∧ framebuffer p'' = framebuffer p
             ∧ ppu_image p'' = Some img.
Proof.
  intros Hw Hh Hlen Hrange.
  assert (Z.of_nat (length (framebuffer p)) = width p * height p) as Hlen'
    by (rewrite Hw, Hh; exact Hlen).
  eexists _, _. split.
  { apply render_frame_result; [lia|lia|done|done]. }
  cbn [framebuffer ppu_image set_canvas set_ppu_image].
  split; [done|]. split; [done|].
  cbn [Image.xsize Image.ysize Image.data].
  split; [done|]. split; [done|].
  split; [by rewrite length_fmap|].
  split.
  { intros i v Hi Hv. rewrite Hw, Hh.
    by apply getpixel_row_major. }
  eexists. split.
  { apply render_frame_result; cbn [width height framebuffer set_canvas
      set_ppu_image]; [lia|lia|done|done]. }
  cbn [framebuffer ppu_image set_canvas set_ppu_image width height].
  done.
Qed.

Lemma render_frame_reads_framebuffer_witness :
  ∃ p' img,
    render_frame Examples.patterned_ppu = (Py.Normal tt, p')
    ∧ framebuffer p' = framebuffer Examples.patterned_ppu
    ∧ ppu_image p' = Some img
    ∧ Image.xsize img = 256 ∧ Image.ysize img = 224
    ∧ Z.of_nat (length (Image.data img)) = 256 * 224
    ∧ (∀ i v, 0 ≤ i →
         Py.getitem (framebuffer Examples.patterned_ppu) i = Some v →
         Image.getpixel img (i `mod` 256) (i `div` 256) = Some (v, v, v))
    ∧ ∃ p'', render_frame p' = (Py.Normal tt, p'')
             ∧ framebuffer p'' = framebuffer Examples.patterned_ppu
             ∧ ppu_image p'' = Some img.
Proof.
  refine (render_frame_reads_framebuffer Examples.patterned_ppu
            eq_refl eq_refl _ _).
  - change (framebuffer Examples.patterned_ppu)
      with (CitraLikeEmulator.test_pattern (256 * 224)).
    unfold CitraLikeEmulator.test_pattern, Py.range.
    rewrite !length_fmap, length_seq. lia.
  - change (framebuffer Examples.patterned_ppu)
      with (CitraLikeEmulator.test_pattern (256 * 224)).
    unfold CitraLikeEmulator.test_pattern.
    apply Forall_fmap, Forall_forall. intros i _. cbn.
    pose proof (Z.mod_pos_bound i 256). lia.
Defined.

End PPUFacts.

(** ** The frame loop *)

Module EmulatorFacts.
Import CitraLikeEmulator.

(** A loop of calls on [self.cpu] is the loop of the calls, on the CPU. *)
Lemma for_each_on_cpu {I} (r : list I) (m : method SimpleSNESCPU.t unit) e :
  for_each r (λ _, on_cpu m) e = on_cpu (repeat_n (length r) m) e.
Proof.
  revert e. induction r as [|i r IH]; intros e.
  - unfold on_cpu; cbn. by destruct e.
  - cbn [for_each length repeat_n]. unfold mbind, method_bind.
    unfold on_cpu at 1 3. cbn [cpu].
    destruct (m (cpu e)) as [[[]|ex] c]; [|reflexivity].
    rewrite IH. unfold on_cpu; cbn [cpu set_cpu].
    by destruct (repeat_n (length r) m c).
Qed.

Lemma length_range n : length (Py.range n) = Z.to_nat n.
Proof. unfold Py.range. by rewrite length_fmap, length_seq. Qed.

Lemma test_pattern_length n :
  0 ≤ n → Z.of_nat (length (test_pattern n)) = n.
Proof.
  intros Hn. unfold test_pattern. rewrite length_fmap, length_range. lia.
Qed.

Lemma test_pattern_range n : Forall (λ v, 0 ≤ v ≤ 255) (test_pattern n).
Proof.
  unfold test_pattern. apply Forall_fmap, Forall_forall. intros i _. cbn.
  pose proof (Z.mod_pos_bound i 256). lia.
Qed.

(** The hundred steps of a frame, seen from the emulator. *)
Lemma frame_steps e :
  for_each (Py.range 100) (λ _, on_cpu SimpleSNESCPU.step) e
  = ((SimpleSNESCPU.steps 100 (cpu e)).1,
     set_cpu (SimpleSNESCPU.steps 100 (cpu e)).2 e).
Proof.
  rewrite for_each_on_cpu, length_range. unfold on_cpu.
  change (repeat_n (Z.to_nat 100) SimpleSNESCPU.step)
    with (SimpleSNESCPU.steps 100).
  by destruct (SimpleSNESCPU.steps 100 (cpu e)).
Qed.

(** C7: a frame tick of a running emulator (with the PPU of the
    constructed size) makes the 100 calls of [step] first; when they all
    return, it then replaces the framebuffer by the test pattern, renders
    that framebuffer onto the canvas, and last schedules the next tick in
    16 ms.  When one of the calls raises, the tick ends there with that
    exception: fewer calls, no refresh, no render, no next tick. *)
Theorem emulate_runs_100_steps_then_renders e :
  is_running e = true →
  SNESPPU.width (ppu e) = 256 → SNESPPU.height (ppu e) = 224 →
  match SimpleSNESCPU.steps 100 (cpu e) with
  | (Py.Normal _, c') =>
    ∃ e', emulate e = (Py.Normal tt, e')
          ∧ cpu e' = c'
          ∧ SNESPPU.framebuffer (ppu e') = test_pattern (256 * 224)
          ∧ SNESPPU.ppu_image (ppu e') = Some test_image
          ∧ SNESPPU.canvas (ppu e')
            = SNESPPU.canvas (ppu e) ++ [Canvas.mk_item 0 0 test_image]
          ∧ timers e' = timers e ++ [16]
          ∧ is_running e' = true
  | (Py.Raise ex, c') => emulate e = (Py.Raise ex, set_cpu c' e)
  end.
Proof.
  intros Hrun Hw Hh.
  unfold emulate, emulate_single_frame, gets, modify, mbind, method_bind.
  rewrite Hrun. cbn [negb]. rewrite frame_steps.
  destruct (SimpleSNESCPU.steps 100 (cpu e)) as [[[]|ex] c']; cbn [fst snd];
    [|reflexivity].
  cbn [ppu set_cpu set_ppu]. rewrite Hw, Hh.
  unfold on_ppu. cbn [ppu set_ppu].
  rewrite render_frame_result; cbn [SNESPPU.width SNESPPU.height
    SNESPPU.framebuffer SNESPPU.set_framebuffer]; rewrite ?Hw, ?Hh;
    [|lia|lia|by rewrite test_pattern_length|apply test_pattern_range].
  eexists. split; [reflexivity|].
  cbn [cpu ppu timers is_running set_timers set_ppu set_cpu
    SNESPPU.framebuffer SNESPPU.ppu_image SNESPPU.canvas
    SNESPPU.set_canvas SNESPPU.set_ppu_image SNESPPU.set_framebuffer].
  repeat split; done.
Qed.

Lemma emulate_runs_100_steps_then_renders_witness :
  ∃ e', emulate Examples.started = (Py.Normal tt, e')
        ∧ SimpleSNESCPU.pc (cpu e') = 0x0082 + 97
        ∧ SNESPPU.framebuffer (ppu e') = test_pattern (256 * 224)
        ∧ SNESPPU.ppu_image (ppu e') = Some test_image
        ∧ timers e' = [16].
Proof.
  pose proof (emulate_runs_100_steps_then_renders Examples.started
                eq_refl eq_refl eq_refl) as H.
  destruct CPUFacts.constructed_frame_steps_return as (c & Hc & Hpc & _).
  change (cpu Examples.started) with SimpleSNESCPU.init in H.
  rewrite Hc in H.
  destruct H as (e' & He & Hcpu & Hfb & Himg & _ & Ht & _).
  exists e'. rewrite Hcpu.
  split; [exact He|]. split; [exact Hpc|]. split; [exact Hfb|].
  split; [exact Himg|exact Ht].
Defined.

(** A step with [pc] past the end of memory raises, and so ends the
    frame before anything is rendered. *)
Lemma step_off_the_end :
  SimpleSNESCPU.step Examples.off_the_end
  = (Py.Raise Py.IndexError, Examples.off_the_end).
Proof. reflexivity. Qed.

End EmulatorFacts.
(** ** More on sequences and bytes *)

Lemma getitem_None_ge {A} (l : list A) i :
  Z.of_nat (length l) ≤ i → Py.getitem l i = None.
Proof.
  intros H. rewrite getitem_lookup by lia. apply lookup_ge_None. lia.
Qed.

Lemma getitem_None_lt {A} (l : list A) i :
  i < - Z.of_nat (length l) → Py.getitem l i = None.
Proof.
  intros H. unfold Py.getitem, Py.index.
  destruct (i <? 0) eqn:E; [|lia].
  destruct (i + Z.of_nat (length l) <? 0) eqn:E2; [done|lia].
Qed.

Lemma setitem_Some_insert {A} (l m : list A) i v :
  0 ≤ i → Py.setitem l i v = Some m → m = <[Z.to_nat i := v]> l.
Proof.
  intros Hi. unfold Py.setitem, Py.index.
  destruct (i <? 0) eqn:E; [lia|]. case_match; [|done]. by intros [= <-].
Qed.

Lemma byte_of_Z_Some v :
  0 ≤ v < 256 → ∃ b, Py.byte_of_Z v = Some b ∧ Py.byte_to_Z b = v.
Proof.
  intros Hv. unfold Py.byte_of_Z.
  destruct (0 <=? v) eqn:E1; [|lia]. destruct (v <? 256) eqn:E2; [|lia].
  cbn [andb]. destruct (Byte.of_N (Z.to_N v)) as [b|] eqn:E.
  - exists b. split; [done|]. unfold Py.byte_to_Z.
    apply Byte.to_of_N in E. lia.
  - apply Byte.of_N_None_iff in E. lia.
Qed.

Lemma byte_of_Z_None v : ¬ (0 ≤ v < 256) → Py.byte_of_Z v = None.
Proof.
  intros H. unfold Py.byte_of_Z.
  destruct (0 <=? v) eqn:E1; destruct (v <? 256) eqn:E2; try done. lia.
Qed.

(** ** The CPU: edges of a step, what a run keeps, the test program's loop *)

Module StepFacts.
Import SimpleSNESCPU CPUFacts.

Implicit Types (s : t) (b v hi lo : byte).

(** The address of an absolute opcode is its first operand byte times 256
    plus its second. *)
Lemma address_big_endian hi lo :
  address (Py.byte_to_Z hi) (Py.byte_to_Z lo)
  = 256 * Py.byte_to_Z hi + Py.byte_to_Z lo.
Proof.
  pose proof (byte_to_Z_range lo) as Hlo. unfold address.
  assert (Z.land (Z.shiftl (Py.byte_to_Z hi) 8) (Py.byte_to_Z lo) = 0) as H0.
  { apply Z.bits_inj'. intros n Hn. rewrite Z.land_spec, Z.bits_0.
    destruct (Z.lt_ge_cases n 8) as [Hlt|Hge].
    - by rewrite Z.shiftl_spec_low.
    - rewrite (proj2 (Z.testbit_false (Py.byte_to_Z lo) n Hn)).
      + apply andb_false_r.
      + assert (2 ^ 8 ≤ 2 ^ n) by (apply Z.pow_le_mono_r; lia).
        rewrite Z.div_small; [done|]. change (2 ^ 8) with 256 in *. lia. }
  rewrite <- Z.lxor_lor, <- Z.add_nocarry_lxor by done.
  rewrite Z.shiftl_mul_pow2 by lia. change (2 ^ 8) with 256. lia.
Qed.

(** *** Steps that raise *)

Lemma step_fetch_fails s :
  Py.getitem (memory s) (pc s) = None →
  step s = (Py.Raise Py.IndexError, s).
Proof. intros H. run. by rewrite H. Qed.

Lemma step_operand_fails s b :
  Py.getitem (memory s) (pc s) = Some b →
  b ∈ [xa9; x8d; x4c] →
  Py.getitem (memory s) (pc s + 1) = None →
  step s = (Py.Raise Py.IndexError, set_pc (pc s + 1) s).
Proof.
  intros H0 Hb H1. run. rewrite H0.
  repeat (apply elem_of_cons in Hb as [->|Hb]);
    [..|by apply elem_of_nil in Hb]; opcode; by rewrite H1.
Qed.

Lemma step_low_operand_fails s b hi :
  Py.getitem (memory s) (pc s) = Some b →
  b ∈ [x8d; x4c] →
  Py.getitem (memory s) (pc s + 1) = Some hi →
  Py.getitem (memory s) (pc s + 1 + 1) = None →
  step s = (Py.Raise Py.IndexError, set_pc (pc s + 1) s).
Proof.
  intros H0 Hb H1 H2. run. rewrite H0.
  repeat (apply elem_of_cons in Hb as [->|Hb]);
    [..|by apply elem_of_nil in Hb]; opcode; rewrite H1; run; by rewrite H2.
Qed.

Lemma step_sta_not_a_byte s hi lo :
  Py.getitem (memory s) (pc s) = Some x8d →
  Py.getitem (memory s) (pc s + 1) = Some hi →
  Py.getitem (memory s) (pc s + 1 + 1) = Some lo →
  Py.byte_of_Z (a s) = None →
  step s = (Py.Raise Py.ValueError, set_pc (pc s + 1) s).
Proof.
  intros H0 H1 H2 Ha. run. rewrite H0. opcode. rewrite H1. run.
  rewrite H2. run. by rewrite Ha.
Qed.

(** *** What a step keeps *)

Lemma step_accumulator s :
  0 ≤ a s < 256 →
  0 ≤ a (step s).2 < 256 ∧ (step s).1 ≠ Py.Raise Py.ValueError.
Proof.
  intros Ha. destruct (byte_of_Z_Some (a s) Ha) as (b & Hb & _).
  run. repeat (case_match; run; simplify_eq/=); split; try done.
  all: apply byte_to_Z_range.
Qed.

Lemma step_pc_nonneg s : 0 ≤ pc s → 0 ≤ pc (step s).2.
Proof.
  intros Hpc.
  run. repeat (case_match; run; simplify_eq/=); try lia.
  all: match goal with
       | |- context [address (Py.byte_to_Z ?h) (Py.byte_to_Z ?l)] =>
         pose proof (address_range h l); lia
       end.
Qed.

Lemma step_high_memory s i :
  0x10000 ≤ i →
  Py.getitem (memory (step s).2) i = Py.getitem (memory s) i.
Proof.
  intros Hi.
  run. repeat (case_match; run; simplify_eq/=); try done.
  match goal with
  | H : Py.setitem _ (address (Py.byte_to_Z ?h) (Py.byte_to_Z ?l)) _ = Some _
    |- _ =>
    pose proof (address_range h l);
    apply setitem_Some_insert in H; [subst|lia]
  end.
  apply getitem_insert_ne; lia.
Qed.

(** *** Runs of steps *)

(** What every step keeps, and what every step's outcome is, a run keeps
    and a run's outcome is. *)
Lemma steps_invariant (P : t → Prop) (Q : Py.outcome unit → Prop) :
  Q (Py.Normal tt) →
  (∀ s, P s → P (step s).2 ∧ Q (step s).1) →
  ∀ n s, P s → P (steps n s).2 ∧ Q (steps n s).1.
Proof.
  intros HQ Hstep n. induction n as [|n IH]; intros s Hs; [done|].
  rewrite steps_S. destruct (Hstep s Hs) as [HP HQ1].
  destruct (step s) as [[[]|e] s']; [by apply IH|done].
Qed.

(** A run that returns has returned at each step before. *)
Lemma steps_prefix_returns n m s s' :
  steps (n + m) s = (Py.Normal tt, s') →
  ∃ s'', steps n s = (Py.Normal tt, s'').
Proof.
  rewrite steps_add. destruct (steps n s) as [[[]|e] s'']; [eauto|done].
Qed.

(** *** The test program's loop *)

(** The load, the store, the jump, and then [k] zero bytes stepped over
    from where the jump lands. *)
Lemma test_program_steps s (k : nat) :
  pc s = 0x8000 →
  installed_at (memory s) 0x8000 test_program →
  (∀ i, 0x0082 ≤ i < 0x0082 + Z.of_nat k →
     Py.getitem (memory s) i = Some x00) →
  steps (3 + k) s
  = (Py.Normal tt, set_pc (0x0082 + Z.of_nat k) (after_lap s)).
Proof.
  intros Hpc Hprog Hzero.
  assert (0 ≤ 0x8000) as Haddr by lia.
  pose proof (λ k b, installed_at_getitem _ _ _ k b Hprog Haddr) as Hget.
  assert (0x8007 < Z.of_nat (length (memory s))) as Hlen.
  { eapply getitem_Some_lt; [|exact (Hget 7%nat x80 eq_refl)]. lia. }
  set (s2 := set_pc 0x8005
               (set_memory (<[2%nat := x05]> (memory s)) (set_a 5 s))).
  assert (steps 2 s = (Py.Normal tt, s2)) as H2.
  { rewrite (steps_lda_sta s x05 x00 x02); rewrite ?Hpc.
    - reflexivity.
    - exact (Hget 0%nat xa9 eq_refl).
    - exact (Hget 1%nat x05 eq_refl).
    - exact (Hget 2%nat x8d eq_refl).
    - exact (Hget 3%nat x00 eq_refl).
    - exact (Hget 4%nat x02 eq_refl).
    - change (address (Py.byte_to_Z x00) (Py.byte_to_Z x02)) with 2. lia. }
  assert (step s2 = (Py.Normal tt, set_pc 0x0082 s2)) as H3.
  { rewrite (step_jmp s2 x00 x80); [reflexivity|..];
      subst s2; cbn [pc memory set_pc set_memory set_a];
      rewrite getitem_insert_ne by lia.
    - exact (Hget 5%nat x4c eq_refl).
    - exact (Hget 6%nat x00 eq_refl).
    - exact (Hget 7%nat x80 eq_refl). }
  assert (steps k (set_pc 0x0082 s2)
          = (Py.Normal tt,
             set_pc (0x0082 + Z.of_nat k) (set_pc 0x0082 s2))) as Hk.
  { rewrite steps_over_other; [reflexivity|].
    intros j Hj. exists x00. split; [|apply not_an_opcode_0x00].
    subst s2; cbn [pc memory set_pc set_memory set_a].
    rewrite getitem_insert_ne by lia. apply Hzero. lia. }
  change (3 + k)%nat with (2 + (1 + k))%nat.
  rewrite steps_add, H2, steps_add, steps_S, H3, steps_0, Hk.
  reflexivity.
Qed.

Lemma lap_steps_eq : lap_steps = (3 + Z.to_nat (0x8000 - 0x0082))%nat.
Proof. unfold lap_steps. lia. Qed.

Lemma lap_steps_pos : (0 < lap_steps)%nat.
Proof. rewrite lap_steps_eq. lia. Qed.

Lemma steps_lap s :
  at_test_program s → steps lap_steps s = (Py.Normal tt, after_lap s).
Proof.
  intros (Hpc & Hprog & Hzero). rewrite lap_steps_eq.
  rewrite test_program_steps; [|done|done|].
  - rewrite Z2Nat.id by lia. reflexivity.
  - intros i Hi. apply Hzero. lia.
Qed.

Lemma at_test_program_after_lap s :
  at_test_program s → at_test_program (after_lap s).
Proof.
  intros (Hpc & Hprog & Hzero).
  assert (0 ≤ 0x8000) as Haddr by lia.
  pose proof (λ k b, installed_at_getitem _ _ _ k b Hprog Haddr) as Hget.
  unfold at_test_program, after_lap; cbn [pc memory set_pc set_memory set_a].
  split; [done|]. split.
  - apply installed_at_intro; [lia|]. intros k b Hk.
    rewrite getitem_insert_ne by lia. by apply Hget.
  - intros i Hi. rewrite getitem_insert_ne by lia. by apply Hzero.
Qed.

Lemma after_lap_twice s : after_lap (after_lap s) = after_lap s.
Proof.
  unfold after_lap, set_pc, set_memory, set_a; cbn [pc memory a x y sp status].
  by rewrite list_insert_insert_eq.
Qed.

(** From the end of a lap, any number of laps come back to that state. *)
Lemma steps_laps q s :
  at_test_program s →
  steps (q * lap_steps) (after_lap s) = (Py.Normal tt, after_lap s).
Proof.
  intros Hs. induction q as [|q IH]; [reflexivity|].
  cbn [Nat.mul]. rewrite steps_add.
  rewrite steps_lap by (by apply at_test_program_after_lap).
  by rewrite after_lap_twice.
Qed.

Lemma steps_from_test_program n s :
  at_test_program s → ∃ s', steps n s = (Py.Normal tt, s').
Proof.
  intros Hs. pose proof lap_steps_pos as Hpos.
  assert (∀ r s0, (r ≤ lap_steps)%nat → at_test_program s0 →
            ∃ s', steps r s0 = (Py.Normal tt, s')) as Hshort.
  { intros r s0 Hr Hs0.
    apply (steps_prefix_returns r (lap_steps - r) s0 (after_lap s0)).
    replace (r + (lap_steps - r))%nat with lap_steps by lia.
    by apply steps_lap. }
  destruct (Nat.lt_ge_cases n lap_steps) as [Hlt|Hge].
  { apply Hshort; [lia|done]. }
  pose proof (Nat.div_mod_eq (n - lap_steps) lap_steps) as Hdiv.
  pose proof (Nat.mod_upper_bound (n - lap_steps) lap_steps) as Hmod.
  set (q := ((n - lap_steps) / lap_steps)%nat) in *.
  set (r := ((n - lap_steps) mod lap_steps)%nat) in *.
  replace n with (lap_steps + (q * lap_steps + r))%nat by lia.
  rewrite steps_add, steps_lap by done.
  rewrite steps_add, steps_laps by done.
  apply Hshort; [lia|by apply at_test_program_after_lap].
Qed.

Lemma init_at_test_program : at_test_program init.
Proof.
  split; [reflexivity|]. split.
  - apply installed_at_intro; [lia|]. exact init_memory_program.
  - intros i Hi. apply init_memory_below. lia.
Qed.

Lemma at_store_opcode :
  Py.getitem (memory Examples.at_store) (pc Examples.at_store) = Some x8d.
Proof. exact (init_memory_program 2 x8d eq_refl). Qed.

Lemma at_jump_opcode :
  Py.getitem (memory Examples.at_jump) (pc Examples.at_jump) = Some x4c.
Proof. exact (init_memory_program 5 x4c eq_refl). Qed.

(** *** Single steps, stated *)

(** X1: STA absolute.  When the byte at [pc] is 0x8D, the two bytes after
    it are [hi] and [lo], the accumulator holds a byte and the address
    [256 * hi + lo] lies in the memory, a call of [step] returns with the
    accumulator's value at that address, every other byte and the length
    of the memory as before, [a] as before, and [pc] advanced by 3. *)
Theorem sta_absolute s hi lo :
  Py.getitem (memory s) (pc s) = Some x8d →
  Py.getitem (memory s) (pc s + 1) = Some hi →
  Py.getitem (memory s) (pc s + 2) = Some lo →
  0 ≤ a s < 256 →
  256 * Py.byte_to_Z hi + Py.byte_to_Z lo < Z.of_nat (length (memory s)) →
  ∃ s', step s = (Py.Normal tt, s')
    ∧ Py.byte_to_Z
        <$> Py.getitem (memory s') (256 * Py.byte_to_Z hi + Py.byte_to_Z lo)
      = Some (a s)
    ∧ (∀ i, 0 ≤ i → i ≠ 256 * Py.byte_to_Z hi + Py.byte_to_Z lo →
         Py.getitem (memory s') i = Py.getitem (memory s) i)
    ∧ length (memory s') = length (memory s)
    ∧ pc s' = pc s + 3 ∧ a s' = a s.
Proof.
  intros H0 H1 H2 Ha Hlen.
  destruct (byte_of_Z_Some (a s) Ha) as (b & Hb & Hba).
  pose proof (address_range hi lo) as Hrange.
  rewrite <- address_big_endian in *.
  eexists. split.
  { apply (step_sta s hi lo b); try done.
    by replace (pc s + 1 + 1) with (pc s + 2) by lia. }
  cbn [pc a memory set_pc set_memory].
  split; [|split; [|split; [|done]]].
  - rewrite getitem_lookup, list_lookup_insert_eq by lia.
    cbn. by rewrite Hba.
  - intros i Hi Hne. apply getitem_insert_ne; lia.
  - apply length_insert.
Qed.

Lemma sta_absolute_witness :
  ∃ s', step Examples.at_store = (Py.Normal tt, s')
    ∧ Py.byte_to_Z
        <$> Py.getitem (memory s')
              (256 * Py.byte_to_Z x00 + Py.byte_to_Z x02)
      = Some (a Examples.at_store)
    ∧ (∀ i, 0 ≤ i → i ≠ 256 * Py.byte_to_Z x00 + Py.byte_to_Z x02 →
         Py.getitem (memory s') i = Py.getitem (memory Examples.at_store) i)
    ∧ length (memory s') = length (memory Examples.at_store)
    ∧ pc s' = pc Examples.at_store + 3 ∧ a s' = a Examples.at_store.
Proof.
  refine (sta_absolute Examples.at_store x00 x02 _ _ _ _ _).
  - exact (init_memory_program 2 x8d eq_refl).
  - exact (init_memory_program 3 x00 eq_refl).
  - exact (init_memory_program 4 x02 eq_refl).
  - cbn [a Examples.at_store set_pc set_a]. lia.
  - change (memory Examples.at_store) with (memory init).
    rewrite init_memory_length. reflexivity.
Defined.

(** X2: JMP absolute.  When the byte at [pc] is 0x4C and the two bytes
    after it are [hi] and [lo], a call of [step] returns with [pc] at
    [256 * hi + lo + 2], two past the address the operand names, and
    nothing else changed. *)
Theorem jmp_absolute s hi lo :
  Py.getitem (memory s) (pc s) = Some x4c →
  Py.getitem (memory s) (pc s + 1) = Some hi →
  Py.getitem (memory s) (pc s + 2) = Some lo →
  step s
  = (Py.Normal tt,
     set_pc (256 * Py.byte_to_Z hi + Py.byte_to_Z lo + 2) s).
Proof.
  intros H0 H1 H2. rewrite <- address_big_endian.
  apply step_jmp; try done.
  by replace (pc s + 1 + 1) with (pc s + 2) by lia.
Qed.

Lemma jmp_absolute_witness :
  step Examples.at_jump
  = (Py.Normal tt,
     set_pc (256 * Py.byte_to_Z x00 + Py.byte_to_Z x80 + 2)
       Examples.at_jump).
Proof.
  refine (jmp_absolute Examples.at_jump x00 x80 _ _ _).
  - exact (init_memory_program 5 x4c eq_refl).
  - exact (init_memory_program 6 x00 eq_refl).
  - exact (init_memory_program 7 x80 eq_refl).
Defined.

(** X3: with [pc] outside the memory, at or past its end or further below
    zero than it is long, a call of [step] raises [IndexError] at the
    opcode fetch and leaves every register and the memory as they were. *)
Theorem fetch_outside_memory s :
  pc s < - Z.of_nat (length (memory s))
  ∨ Z.of_nat (length (memory s)) ≤ pc s →
  step s = (Py.Raise Py.IndexError, s).
Proof.
  intros [H|H]; apply step_fetch_fails;
    [by apply getitem_None_lt|by apply getitem_None_ge].
Qed.

Lemma fetch_outside_memory_witness :
  step Examples.off_the_end = (Py.Raise Py.IndexError, Examples.off_the_end).
Proof.
  refine (fetch_outside_memory Examples.off_the_end (or_intror _)).
  cbn. lia.
Defined.

(** X4: an instruction cut off by the end of the memory.  When the byte
    at [pc] is 0xA9 and is the last one, or is 0x8D or 0x4C with fewer
    than two bytes after it, a call of [step] raises [IndexError] with
    [pc] already advanced by 1: the state is not the one before the call.
    Nothing else has changed. *)
Theorem cut_off_instruction s b :
  0 ≤ pc s →
  Py.getitem (memory s) (pc s) = Some b →
  b = xa9 ∧ Z.of_nat (length (memory s)) ≤ pc s + 1
  ∨ b ∈ [x8d; x4c] ∧ Z.of_nat (length (memory s)) ≤ pc s + 2 →
  step s = (Py.Raise Py.IndexError, set_pc (pc s + 1) s).
Proof.
  intros Hpc H0 [[-> Hlen]|[Hb Hlen]].
  - apply (step_operand_fails s xa9); [done|repeat constructor|].
    by apply getitem_None_ge.
  - destruct (Py.getitem (memory s) (pc s + 1)) as [hi|] eqn:H1.
    + apply (step_low_operand_fails s b hi); try done.
      apply getitem_None_ge. lia.
    + apply (step_operand_fails s b); try done.
      apply elem_of_cons; by right.
Qed.

Lemma cut_off_instruction_witness :
  step Examples.cut_store
  = (Py.Raise Py.IndexError,
     set_pc (pc Examples.cut_store + 1) Examples.cut_store).
Proof.
  refine (cut_off_instruction Examples.cut_store x8d _ _ (or_intror _)).
  - cbn. lia.
  - reflexivity.
  - split; [repeat constructor|cbn; lia].
Defined.

(** X5: STA with an accumulator that is no byte.  When the byte at [pc]
    is 0x8D, its operand is readable and names an address in the memory,
    and [a] is not in 0..255, a call of [step] raises [ValueError]; the
    memory is as before and [pc] is advanced by 1 only. *)
Theorem sta_accumulator_not_a_byte s hi lo :
  Py.getitem (memory s) (pc s) = Some x8d →
  Py.getitem (memory s) (pc s + 1) = Some hi →
  Py.getitem (memory s) (pc s + 2) = Some lo →
  256 * Py.byte_to_Z hi + Py.byte_to_Z lo < Z.of_nat (length (memory s)) →
  ¬ (0 ≤ a s < 256) →
  step s = (Py.Raise Py.ValueError, set_pc (pc s + 1) s).
Proof.
  intros H0 H1 H2 _ Ha. apply (step_sta_not_a_byte s hi lo); try done.
  - by replace (pc s + 1 + 1) with (pc s + 2) by lia.
  - by apply byte_of_Z_None.
Qed.

Lemma sta_accumulator_not_a_byte_witness :
  step Examples.wide_accumulator
  = (Py.Raise Py.ValueError,
     set_pc (pc Examples.wide_accumulator + 1) Examples.wide_accumulator).
Proof.
  refine (sta_accumulator_not_a_byte Examples.wide_accumulator x00 x03
            eq_refl eq_refl eq_refl _ _).
  - cbn. lia.
  - cbn. lia.
Defined.

(** *** Runs of steps, stated *)

(** X6: a run keeps the accumulator a byte.  From a state whose [a] is in
    0..255, after any number of calls of [step], all returned or the last
    one raised, [a] is still in 0..255; and what a call raises is never
    [ValueError], so a store never fails on the value it stores. *)
Theorem steps_keep_accumulator_a_byte n s :
  0 ≤ a s < 256 →
  0 ≤ a (steps n s).2 < 256 ∧ (steps n s).1 ≠ Py.Raise Py.ValueError.
Proof.
  apply (steps_invariant (λ s, 0 ≤ a s < 256)
           (λ r, r ≠ Py.Raise Py.ValueError)); [done|].
  apply step_accumulator.
Qed.

Lemma steps_keep_accumulator_a_byte_witness :
  0 ≤ a (steps 100 init).2 < 256
  ∧ (steps 100 init).1 ≠ Py.Raise Py.ValueError.
Proof.
  refine (steps_keep_accumulator_a_byte 100 init _).
  change (a init) with 0. lia.
Defined.

(** X7: no run of steps resizes the memory: after any number of calls of
    [step], returned or raised, the memory has the length it had. *)
Theorem steps_keep_memory_length n s :
  length (memory (steps n s).2) = length (memory s).
Proof.
  refine (proj1 (steps_invariant
            (λ s', length (memory s') = length (memory s)) (λ _, True)
            I _ n s eq_refl)).
  intros s' Hs'. split; [|done]. by rewrite step_memory_length.
Qed.

(** X8: a run of steps never makes [pc] negative: from [0 ≤ pc], after
    any number of calls of [step], returned or raised, [0 ≤ pc] still, so
    no fetch reads from the end of the memory by a negative index. *)
Theorem steps_keep_pc_nonnegative n s :
  0 ≤ pc s → 0 ≤ pc (steps n s).2.
Proof.
  intros Hpc.
  refine (proj1 (steps_invariant (λ s', 0 ≤ pc s') (λ _, True) I _ n s Hpc)).
  intros s' Hs'. split; [by apply step_pc_nonneg|done].
Qed.

Lemma steps_keep_pc_nonnegative_witness :
  0 ≤ pc (steps 7 Examples.at_jump).2.
Proof.
  refine (steps_keep_pc_nonnegative 7 Examples.at_jump _).
  cbn. lia.
Defined.

(** X9: a run of steps writes below 0x10000 only: whatever the state and
    the program, after any number of calls of [step] every byte at an
    index from 0x10000 on reads as it did before. *)
Theorem steps_keep_memory_from_0x10000 n s i :
  0x10000 ≤ i →
  Py.getitem (memory (steps n s).2) i = Py.getitem (memory s) i.
Proof.
  intros Hi.
  refine (proj1 (steps_invariant
            (λ s', Py.getitem (memory s') i = Py.getitem (memory s) i)
            (λ _, True) I _ n s eq_refl)).
  intros s' Hs'. split; [|done]. by rewrite step_high_memory.
Qed.

Lemma steps_keep_memory_from_0x10000_witness :
  Py.getitem (memory (steps 100 init).2) 0x10000
  = Py.getitem (memory init) 0x10000.
Proof.
  refine (steps_keep_memory_from_0x10000 100 init 0x10000 _). lia.
Defined.

(** X10: only the store writes.  Unless the byte at [pc] is 0x8D, a call
    of [step], returned or raised, leaves the whole memory as it was. *)
Theorem step_without_sta_keeps_memory s :
  Py.getitem (memory s) (pc s) ≠ Some x8d →
  memory (step s).2 = memory s.
Proof.
  intros H. run. destruct (Py.getitem (memory s) (pc s)) as [b|]; [|done].
  run. change 141 with (Py.byte_to_Z x8d). rewrite !opcode_eqb.
  case_bool_decide as Hb; [congruence|].
  repeat (case_match; run; simplify_eq/=); done.
Qed.

Lemma step_without_sta_keeps_memory_witness :
  memory (step Examples.at_jump).2 = memory Examples.at_jump.
Proof.
  refine (step_without_sta_keeps_memory Examples.at_jump _).
  intros H. rewrite at_jump_opcode in H. discriminate H.
Defined.

(** X11: only the load writes the accumulator.  Unless the byte at [pc]
    is 0xA9, a call of [step], returned or raised, leaves [a] as it
    was. *)
Theorem step_without_lda_keeps_a s :
  Py.getitem (memory s) (pc s) ≠ Some xa9 →
  a (step s).2 = a s.
Proof.
  intros H. run. destruct (Py.getitem (memory s) (pc s)) as [b|]; [|done].
  run. change 169 with (Py.byte_to_Z xa9). rewrite !opcode_eqb.
  case_bool_decide as Hb; [congruence|].
  repeat (case_match; run; simplify_eq/=); done.
Qed.

Lemma step_without_lda_keeps_a_witness :
  a (step Examples.at_store).2 = a Examples.at_store.
Proof.
  refine (step_without_lda_keeps_a Examples.at_store _).
  intros H. rewrite at_store_opcode in H. discriminate H.
Defined.

(** X12: a run of [n] bytes from [pc] on that are none of 0xA9, 0x8D and
    0x4C is stepped over in [n] calls of [step], one byte a call: they
    all return, [pc] is advanced by [n], and nothing else is changed. *)
Theorem steps_over_unknown_opcodes n s :
  (∀ k, (k < n)%nat →
     ∃ b, Py.getitem (memory s) (pc s + Z.of_nat k) = Some b
          ∧ b ∉ [xa9; x8d; x4c]) →
  steps n s = (Py.Normal tt, set_pc (pc s + Z.of_nat n) s).
Proof. apply steps_over_other. Qed.

Lemma steps_over_unknown_opcodes_witness :
  steps 5 Examples.past_program
  = (Py.Normal tt,
     set_pc (pc Examples.past_program + Z.of_nat 5) Examples.past_program).
Proof.
  refine (steps_over_unknown_opcodes 5 Examples.past_program _).
  intros k Hk. exists x00. split; [|apply not_an_opcode_0x00].
  apply init_memory_above.
  change (pc Examples.past_program) with 0x8008. lia.
Defined.

(** *** The constructed CPU *)

(** X13: the memory a constructed CPU starts with.  All eight bytes of
    the test program are at 0x8000..0x8007, though the slice they are
    assigned to is three bytes long, and every other of the 0x100005
    bytes is zero. *)
Theorem constructed_memory_contents :
  installed_at (memory init) 0x8000
    [xa9; x05; x8d; x00; x02; x4c; x00; x80]
  ∧ ∀ i, 0 ≤ i < 0x100005 → ¬ (0x8000 ≤ i < 0x8008) →
      Py.getitem (memory init) i = Some x00.
Proof.
  split.
  - apply installed_at_intro; [lia|]. exact init_memory_program.
  - intros i Hi Hout. destruct (Z.lt_ge_cases i 0x8000).
    + apply init_memory_below. lia.
    + apply init_memory_above. lia.
Qed.

(** X14: the test program loops, by a detour.  From a state with [pc] at
    0x8000, the test program there and zero bytes from 0x0082 up to it,
    the load, the store and the jump are followed by a walk over those
    zero bytes from 0x0082, where the jump lands, back to 0x8000: after
    [3 + (0x8000 - 0x0082)] steps, which all return, [pc] is at 0x8000
    again, [a] is 5, the byte at 0x0002 is 5 and nothing else has changed;
    and from then on every such lap ends in that same state. *)
Theorem test_program_lap s :
  at_test_program s →
  steps lap_steps s = (Py.Normal tt, after_lap s)
  ∧ ∀ q, steps (q * lap_steps) (after_lap s) = (Py.Normal tt, after_lap s).
Proof.
  intros Hs. split; [by apply steps_lap|].
  intros q. by apply steps_laps.
Qed.

Lemma test_program_lap_witness :
  steps lap_steps init = (Py.Normal tt, after_lap init)
  ∧ ∀ q, steps (q * lap_steps) (after_lap init)
         = (Py.Normal tt, after_lap init).
Proof.
  exact (test_program_lap init init_at_test_program).
Defined.

(** X15: the test program never makes a step raise.  From a state with
    [pc] at 0x8000, the test program there and zero bytes from 0x0082 up
    to it, as a constructed CPU is, any number of calls of [step] all
    return. *)
Theorem test_program_never_raises n s :
  at_test_program s → ∃ s', steps n s = (Py.Normal tt, s').
Proof. apply steps_from_test_program. Qed.

Lemma test_program_never_raises_witness :
  ∃ s', steps (Z.to_nat 1000000) init = (Py.Normal tt, s').
Proof.
  exact (test_program_never_raises (Z.to_nat 1000000) init
           init_at_test_program).
Defined.

End StepFacts.

(** ** Loops *)

Section ForEachFacts.
Context {S I : Type}.
Implicit Types (body : I → method S unit) (r : list I).

Lemma for_each_ext r body1 body2 s :
  (∀ i s', i ∈ r → body1 i s' = body2 i s') →
  for_each r body1 s = for_each r body2 s.
Proof.
  revert s. induction r as [|i r IH]; intros s H; [reflexivity|].
  cbn [for_each]. unfold mbind, method_bind.
  rewrite (H i s) by (by left).
  destruct (body2 i s) as [[[]|e] s']; [|reflexivity].
  apply IH. intros j s'' Hj. apply H. by right.
Qed.

(** A loop whose every round returns and keeps [Inv] returns and keeps
    it. *)
Lemma for_each_returns (Inv : S → Prop) r body :
  (∀ i s, i ∈ r → Inv s → ∃ s', body i s = (Py.Normal tt, s') ∧ Inv s') →
  ∀ s, Inv s → ∃ s', for_each r body s = (Py.Normal tt, s') ∧ Inv s'.
Proof.
  induction r as [|i r IH]; intros H s Hs; [by exists s|].
  cbn [for_each]. unfold mbind, method_bind.
  destruct (H i s) as (s' & -> & Hs'); [by left|done|].
  apply IH; [|done]. intros j s'' Hj. apply H. by right.
Qed.

(** A loop raises what its first raising round raises. *)
Lemma for_each_raises (Inv : S → Prop) r1 i r2 body e :
  (∀ j s, j ∈ r1 → Inv s → ∃ s', body j s = (Py.Normal tt, s') ∧ Inv s') →
  (∀ s, Inv s → ∃ s', body i s = (Py.Raise e, s')) →
  ∀ s, Inv s → ∃ s', for_each (r1 ++ i :: r2) body s = (Py.Raise e, s').
Proof.
  induction r1 as [|j r1 IH]; intros H Hi s Hs.
  - cbn [app for_each]. unfold mbind, method_bind.
    destruct (Hi s Hs) as (s' & ->). by exists s'.
  - cbn [app for_each]. unfold mbind, method_bind.
    destruct (H j s) as (s' & -> & Hs'); [by left|done|].
    apply IH; [|done|done]. intros k s'' Hk. apply H. by right.
Qed.
End ForEachFacts.

Lemma elem_of_range n i : i ∈ Py.range n ↔ 0 ≤ i < n.
Proof.
  unfold Py.range. rewrite list_elem_of_fmap. split.
  - intros (k & -> & Hk%elem_of_seq). lia.
  - intros Hi. exists (Z.to_nat i). split; [lia|]. apply elem_of_seq. lia.
Qed.

(** [range(n)] up to [k], [k] itself, and the rest. *)
Lemma range_split n k :
  0 ≤ k < n →
  ∃ rest, Py.range n = Py.range k ++ k :: rest.
Proof.
  intros Hk. unfold Py.range.
  replace (Z.to_nat n) with (Z.to_nat k + S (Z.to_nat n - S (Z.to_nat k)))%nat
    by lia.
  rewrite seq_app, fmap_app. cbn [seq fmap list_fmap].
  eexists. f_equal. f_equal. lia.
Qed.

(** ** Rendering, whatever the length of the framebuffer *)

Module RenderFacts.
Import SNESPPU.

(** The loops read the framebuffer at the indices below [width * height]
    only. *)
Lemma paint_ext p q img :
  width p = width q → height p = height q →
  (∀ i, 0 ≤ i < width p * height p →
     Py.getitem (framebuffer p) i = Py.getitem (framebuffer q) i) →
  paint p img = paint q img.
Proof.
  intros Hw Hh Hfb. unfold paint. rewrite <- Hw, <- Hh.
  apply for_each_ext. intros y img1 Hy%elem_of_range.
  apply for_each_ext. intros x img2 Hx%elem_of_range.
  unfold mbind, method_bind, pixel_at. rewrite Hfb by nia. reflexivity.
Qed.

(** One round of the inner loop, on an image of the size of the
    screen. *)
Lemma paint_round_returns p x y img :
  0 ≤ x < width p → 0 ≤ y < height p →
  y * width p + x < Z.of_nat (length (framebuffer p)) →
  Image.xsize img = width p ∧ Image.ysize img = height p →
  ∃ img',
    (color ← pixel_at p (y * width p + x);
     Image.putpixel x y (color, color, color)) img = (Py.Normal tt, img')
    ∧ Image.xsize img' = width p ∧ Image.ysize img' = height p.
Proof.
  intros Hx Hy Hlt [Hxs Hys].
  destruct (lookup_lt_is_Some_2 (framebuffer p)
              (Z.to_nat (y * width p + x))) as [v Hv]; [nia|].
  unfold mbind, method_bind, pixel_at.
  rewrite getitem_lookup, Hv by nia.
  unfold Image.putpixel, Image.offset. rewrite Hxs, Hys.
  destruct (x <? 0) eqn:E1; [lia|]. destruct (y <? 0) eqn:E2; [lia|].
  destruct (0 <=? x) eqn:E3; [|lia].
  destruct (x <? width p) eqn:E4; [|lia].
  destruct (0 <=? y) eqn:E5; [|lia].
  destruct (y <? height p) eqn:E6; [|lia].
  cbn [andb]. eexists. split; [reflexivity|]. done.
Qed.

Lemma paint_round_raises p x y img :
  0 ≤ y * width p + x →
  Z.of_nat (length (framebuffer p)) ≤ y * width p + x →
  (color ← pixel_at p (y * width p + x);
   Image.putpixel x y (color, color, color)) img
  = (Py.Raise Py.IndexError, img).
Proof.
  intros H0 Hge. unfold mbind, method_bind, pixel_at.
  by rewrite getitem_None_ge.
Qed.

(** With a framebuffer shorter than the screen the loops raise at the
    first pixel that has no intensity. *)
Lemma paint_short p img :
  0 ≤ width p → 0 ≤ height p →
  Z.of_nat (length (framebuffer p)) < width p * height p →
  Image.xsize img = width p ∧ Image.ysize img = height p →
  ∃ img', paint p img = (Py.Raise Py.IndexError, img').
Proof.
  intros Hw Hh Hlen Hsize.
  set (L := Z.of_nat (length (framebuffer p))) in *.
  assert (0 < width p) as Hw' by nia.
  pose proof (Z.div_mod L (width p)) as Hdm.
  pose proof (Z.mod_pos_bound L (width p) Hw') as Hmod.
  assert (0 ≤ L `div` width p) as Hdiv0 by (apply Z.div_pos; lia).
  assert (L `div` width p < height p) as Hdivh
    by (apply Z.div_lt_upper_bound; lia).
  destruct (range_split (height p) (L `div` width p)) as [rows Hrows];
    [lia|].
  destruct (range_split (width p) (L `mod` width p)) as [cols Hcols];
    [lia|].
  unfold paint. rewrite Hrows.
  apply (for_each_raises
           (λ img, Image.xsize img = width p ∧ Image.ysize img = height p));
    [| |done].
  - intros y img1 Hy%elem_of_range Himg1.
    apply (for_each_returns
             (λ img, Image.xsize img = width p ∧ Image.ysize img = height p));
      [|done].
    intros x img2 Hx%elem_of_range Himg2.
    apply paint_round_returns; [lia|lia|nia|done].
  - intros img1 Himg1. rewrite Hcols.
    apply (for_each_raises
             (λ img, Image.xsize img = width p ∧ Image.ysize img = height p));
      [| |done].
    + intros x img2 Hx%elem_of_range Himg2.
      apply paint_round_returns; [lia|lia|nia|done].
    + intros img2 Himg2. eexists. apply paint_round_raises; nia.
Qed.

(** X16: a framebuffer shorter than the screen.  On a PPU whose
    framebuffer holds fewer than [width * height] intensities, all in
    0..255, [render_frame] raises [IndexError], and the PPU is as before
    the call: no image is kept and nothing is put on the canvas. *)
Theorem render_frame_short_framebuffer p :
  0 ≤ width p → 0 ≤ height p →
  Z.of_nat (length (framebuffer p)) < width p * height p →
  Forall (λ v, 0 ≤ v ≤ 255) (framebuffer p) →
  render_frame p = (Py.Raise Py.IndexError, p).
Proof.
  intros Hw Hh Hlen _. unfold render_frame, Image.new.
  destruct (width p <? 0) eqn:E1; [lia|].
  destruct (height p <? 0) eqn:E2; [lia|]. cbn [orb].
  destruct (paint_short p
              (Image.mk (width p) (height p)
                 (replicate (Z.to_nat (width p * height p)) (0, 0, 0))))
    as (img' & ->); done.
Qed.

Lemma render_frame_short_framebuffer_witness :
  render_frame (Examples.small_ppu [10; 20; 30])
  = (Py.Raise Py.IndexError, Examples.small_ppu [10; 20; 30]).
Proof.
  refine (render_frame_short_framebuffer (Examples.small_ppu [10; 20; 30])
            _ _ _ _).
  - cbn. lia.
  - cbn. lia.
  - cbn. lia.
  - repeat constructor; lia.
Defined.

(** X17: a framebuffer at least as long as the screen.  On a PPU of any
    size whose framebuffer holds [width * height] intensities or more, all
    in 0..255, [render_frame] returns; the image it keeps and puts on the
    canvas, as one more item at (0, 0), is made of the first
    [width * height] intensities, each as a gray pixel, row after row, and
    what the framebuffer holds beyond them is not read.  The framebuffer
    stays as it was. *)
Theorem render_frame_long_framebuffer p :
  0 ≤ width p → 0 ≤ height p →
  width p * height p ≤ Z.of_nat (length (framebuffer p)) →
  Forall (λ v, 0 ≤ v ≤ 255) (framebuffer p) →
  render_frame p
  = (Py.Normal tt,
     let img := Image.mk (width p) (height p)
                  ((λ v, (v, v, v))
                     <$> take (Z.to_nat (width p * height p))
                           (framebuffer p)) in
     set_canvas (canvas p ++ [Canvas.mk_item 0 0 img])
       (set_ppu_image (Some img) p)).
Proof.
  intros Hw Hh Hlen Hrange.
  set (q := set_framebuffer
              (take (Z.to_nat (width p * height p)) (framebuffer p)) p).
  assert (Z.of_nat (length (framebuffer q)) = width q * height q) as Hlenq.
  { subst q; cbn [framebuffer width height set_framebuffer].
    rewrite length_take. nia. }
  assert (Forall (λ v, 0 ≤ v ≤ 255) (framebuffer q)) as Hrangeq
    by (by apply Forall_take).
  pose proof (new_is_painted_0 q Hw Hh Hlenq) as Hnew.
  pose proof (paint_all q Hw Hh Hlenq Hrangeq) as Hpaint.
  rewrite <- (paint_ext p q) in Hpaint; [|done|done|].
  - change (width q) with (width p) in *.
    change (height q) with (height p) in *.
    unfold render_frame. rewrite Hnew, Hpaint. reflexivity.
  - intros i Hi. subst q; cbn [framebuffer set_framebuffer].
    rewrite !getitem_lookup by lia. symmetry. apply lookup_take_lt. lia.
Qed.

Lemma render_frame_long_framebuffer_witness :
  render_frame (Examples.small_ppu [10; 20; 30; 40; 50])
  = (Py.Normal tt,
     let img := Image.mk 2 2 [(10, 10, 10); (20, 20, 20);
                              (30, 30, 30); (40, 40, 40)] in
     set_canvas [Canvas.mk_item 0 0 img]
       (set_ppu_image (Some img)
          (Examples.small_ppu [10; 20; 30; 40; 50]))).
Proof.
  refine (render_frame_long_framebuffer
            (Examples.small_ppu [10; 20; 30; 40; 50]) _ _ _ _).
  - cbn. lia.
  - cbn. lia.
  - cbn. lia.
  - repeat constructor; lia.
Defined.

End RenderFacts.

(** ** Loading a ROM *)

Module LoadFacts.
Import SimpleSNESCPU CitraLikeEmulator.

Lemma load_rom_result e name contents :
  load_rom (Some (name, contents)) e
  = (Py.Normal tt,
     set_status_label ("Loaded: " +:+ name)
       (set_cpu
          (set_memory
             (Py.setslice (memory (cpu e)) 0x8000 0xC000
                (take (Z.to_nat 0x20000) contents))
             (cpu e)) e)).
Proof. reflexivity. Qed.

Lemma constructed_emulator_memory_length :
  0xC000 ≤ Z.of_nat (length (memory (cpu init))).
Proof.
  change (cpu init) with SimpleSNESCPU.init.
  rewrite CPUFacts.init_memory_length. lia.
Qed.

(** X18: what [load_rom] of a chosen file does to an emulator whose
    memory has at least 0xC000 bytes.  It returns; the file's content, cut
    to its first 0x20000 bytes, then occupies the memory from 0x8000 on,
    and the bytes below 0x8000 are as before.  The CPU is not reset: [pc],
    [a], [x], [y], [sp] and [status] are as before, and so are the PPU and
    [is_running]; the status label names the file. *)
Theorem load_rom_installs_the_file e name contents :
  0xC000 ≤ Z.of_nat (length (memory (cpu e))) →
  ∃ e', load_rom (Some (name, contents)) e = (Py.Normal tt, e')
    ∧ installed_at (memory (cpu e')) 0x8000
        (take (Z.to_nat 0x20000) contents)
    ∧ (∀ i, 0 ≤ i < 0x8000 →
         Py.getitem (memory (cpu e')) i = Py.getitem (memory (cpu e)) i)
    ∧ pc (cpu e') = pc (cpu e) ∧ a (cpu e') = a (cpu e)
    ∧ x (cpu e') = x (cpu e) ∧ y (cpu e') = y (cpu e)
    ∧ sp (cpu e') = sp (cpu e) ∧ status (cpu e') = status (cpu e)
    ∧ ppu e' = ppu e ∧ is_running e' = is_running e
    ∧ status_label e' = "Loaded: " +:+ name.
Proof.
  intros Hlen. eexists. split; [apply load_rom_result|].
  cbn [cpu ppu is_running status_label set_status_label set_cpu
    memory pc a x y sp status set_memory].
  split; [|split; [|done]].
  - apply CPUFacts.installed_at_intro; [lia|]. intros k b Hk.
    apply getitem_setslice_data; [lia|lia|done].
  - intros i Hi. rewrite getitem_setslice_before by lia.
    by rewrite getitem_lookup by lia.
Qed.

Lemma load_rom_installs_the_file_witness :
  ∃ e', load_rom (Some ("test.sfc", Examples.jmp_self_rom)) init
        = (Py.Normal tt, e')
    ∧ installed_at (memory (cpu e')) 0x8000
        (take (Z.to_nat 0x20000) Examples.jmp_self_rom)
    ∧ (∀ i, 0 ≤ i < 0x8000 →
         Py.getitem (memory (cpu e')) i = Py.getitem (memory (cpu init)) i)
    ∧ pc (cpu e') = pc (cpu init) ∧ a (cpu e') = a (cpu init)
    ∧ x (cpu e') = x (cpu init) ∧ y (cpu e') = y (cpu init)
    ∧ sp (cpu e') = sp (cpu init) ∧ status (cpu e') = status (cpu init)
    ∧ ppu e' = ppu init ∧ is_running e' = is_running init
    ∧ status_label e' = "Loaded: " +:+ "test.sfc".
Proof.
  exact (load_rom_installs_the_file init "test.sfc" Examples.jmp_self_rom
           constructed_emulator_memory_length).
Defined.

(** X19: [load_rom] moves the upper memory.  The 0x4000 bytes at
    0x8000..0xBFFF are replaced by all the [n] bytes read from the file,
    [n] the file's length or 0x20000 if that is less; so on an emulator
    whose memory has at least 0xC000 bytes the memory's length changes by
    [n - 0x4000], and what was read at an index [i] from 0xC000 on is read
    at [i - 0x4000 + n] afterwards. *)
Theorem load_rom_moves_the_upper_memory e name contents :
  0xC000 ≤ Z.of_nat (length (memory (cpu e))) →
  let n := Z.min (Z.of_nat (length contents)) 0x20000 in
  let e' := (load_rom (Some (name, contents)) e).2 in
  Z.of_nat (length (memory (cpu e')))
  = Z.of_nat (length (memory (cpu e))) - 0x4000 + n
  ∧ ∀ i, 0xC000 ≤ i →
      Py.getitem (memory (cpu e')) (i - 0x4000 + n)
      = Py.getitem (memory (cpu e)) i.
Proof.
  intros Hlen n e'. subst e'. rewrite load_rom_result.
  cbn [snd cpu set_status_label set_cpu memory set_memory].
  assert (Z.of_nat (length (take (Z.to_nat 0x20000) contents)) = n) as Hn
    by (rewrite length_take; lia).
  split.
  - rewrite setslice_length by lia. lia.
  - intros i Hi.
    replace (i - 0x4000 + n)
      with (0x8000 + Z.of_nat (length (take (Z.to_nat 0x20000) contents))
            + Z.of_nat (Z.to_nat (i - 0xC000))) by lia.
    rewrite getitem_setslice_after, getitem_lookup by lia.
    f_equal. lia.
Qed.

Lemma load_rom_moves_the_upper_memory_witness :
  let n := Z.min (Z.of_nat (length Examples.jmp_self_rom)) 0x20000 in
  let e' := (load_rom (Some ("test.sfc", Examples.jmp_self_rom)) init).2 in
  Z.of_nat (length (memory (cpu e')))
  = Z.of_nat (length (memory (cpu init))) - 0x4000 + n
  ∧ ∀ i, 0xC000 ≤ i →
      Py.getitem (memory (cpu e')) (i - 0x4000 + n)
      = Py.getitem (memory (cpu init)) i.
Proof.
  exact (load_rom_moves_the_upper_memory init "test.sfc"
           Examples.jmp_self_rom constructed_emulator_memory_length).
Defined.

End LoadFacts.

(** ** Frames *)

Module FrameFacts.
Import CitraLikeEmulator.

Lemma test_pattern_getitem n i :
  0 ≤ i < n → Py.getitem (test_pattern n) i = Some (i `mod` 256).
Proof.
  intros Hi. unfold test_pattern, Py.range.
  rewrite getitem_lookup by lia.
  rewrite !list_lookup_fmap, lookup_seq_lt by lia.
  cbn. do 2 f_equal. lia.
Qed.

(** The test image is a ramp from left to right, the same in every
    row. *)
Lemma test_image_pixel x y :
  0 ≤ x < 256 → 0 ≤ y < 224 →
  Image.getpixel test_image x y = Some (x, x, x).
Proof.
  intros Hx Hy.
  assert ((y * 256 + x) `mod` 256 = x) as Hmod
    by (symmetry; apply (Z.mod_unique _ _ y); lia).
  assert ((y * 256 + x) `div` 256 = y) as Hdiv
    by (symmetry; apply (Z.div_unique _ _ _ x); lia).
  pose proof (PPUFacts.getpixel_row_major 256 224
                (test_pattern (256 * 224)) (y * 256 + x) x) as H.
  rewrite Hmod, Hdiv in H. apply H; [lia| |lia|].
  - by rewrite EmulatorFacts.test_pattern_length.
  - rewrite test_pattern_getitem by lia. by rewrite Hmod.
Qed.

(** A run of steps that returns is a run of its first part, which
    returns, and then of the rest. *)
Lemma steps_add_returns n m c :
  (SimpleSNESCPU.steps (n + m) c).1 = Py.Normal tt →
  (SimpleSNESCPU.steps n c).1 = Py.Normal tt
  ∧ SimpleSNESCPU.steps (n + m) c
    = SimpleSNESCPU.steps m (SimpleSNESCPU.steps n c).2.
Proof.
  rewrite CPUFacts.steps_add.
  destruct (SimpleSNESCPU.steps n c) as [[[]|ex] c']; cbn [fst snd]; done.
Qed.

(** One callback of a running emulator whose hundred steps return. *)
Lemma emulate_running e :
  is_running e = true →
  SNESPPU.width (ppu e) = 256 → SNESPPU.height (ppu e) = 224 →
  (SimpleSNESCPU.steps 100 (cpu e)).1 = Py.Normal tt →
  ∃ e', emulate e = (Py.Normal tt, e')
    ∧ cpu e' = (SimpleSNESCPU.steps 100 (cpu e)).2
    ∧ ppu e'
      = SNESPPU.mk
          (SNESPPU.canvas (ppu e) ++ [Canvas.mk_item 0 0 test_image])
          (Some test_image) 256 224 (test_pattern (256 * 224))
    ∧ is_running e' = true
    ∧ timers e' = timers e ++ [16]
    ∧ status_label e' = status_label e.
Proof.
  intros Hrun Hw Hh Hsteps.
  unfold emulate, emulate_single_frame, gets, modify, mbind, method_bind.
  rewrite Hrun. cbn [negb]. rewrite EmulatorFacts.frame_steps, Hsteps.
  cbn [ppu set_cpu set_ppu]. rewrite Hw, Hh.
  unfold on_ppu. cbn [ppu set_ppu].
  rewrite render_frame_result; cbn [SNESPPU.width SNESPPU.height
    SNESPPU.framebuffer SNESPPU.set_framebuffer]; rewrite ?Hw, ?Hh;
    [|lia|lia|by rewrite EmulatorFacts.test_pattern_length
     |apply EmulatorFacts.test_pattern_range].
  eexists. split; [reflexivity|].
  cbn [cpu ppu timers is_running status_label set_timers set_ppu set_cpu
    SNESPPU.set_canvas SNESPPU.set_ppu_image SNESPPU.set_framebuffer
    SNESPPU.canvas SNESPPU.ppu_image SNESPPU.width SNESPPU.height
    SNESPPU.framebuffer].
  split; [reflexivity|]. split; [|done].
  unfold SNESPPU.set_canvas, SNESPPU.set_ppu_image, SNESPPU.set_framebuffer,
    test_image.
  cbn [SNESPPU.canvas SNESPPU.ppu_image SNESPPU.width SNESPPU.height
    SNESPPU.framebuffer].
  rewrite Hw, Hh. reflexivity.
Qed.

Lemma frames_S n e :
  frames (S n) e
  = match emulate e with
    | (Py.Normal _, e') => frames n e'
    | (Py.Raise ex, e') => (Py.Raise ex, e')
    end.
Proof. reflexivity. Qed.

Lemma emulate_not_running e :
  is_running e = false → emulate e = (Py.Normal tt, e).
Proof.
  intros H. unfold emulate, gets, mbind, method_bind. by rewrite H.
Qed.

Lemma frames_not_running n e :
  is_running e = false → frames n e = (Py.Normal tt, e).
Proof.
  intros H. induction n as [|n IH]; [reflexivity|].
  by rewrite frames_S, emulate_not_running.
Qed.

(** [n] callbacks of a running emulator whose steps all return. *)
Lemma frames_running n e :
  is_running e = true →
  SNESPPU.width (ppu e) = 256 → SNESPPU.height (ppu e) = 224 →
  (SimpleSNESCPU.steps (n * 100) (cpu e)).1 = Py.Normal tt →
  ∃ e', frames n e = (Py.Normal tt, e')
    ∧ cpu e' = (SimpleSNESCPU.steps (n * 100) (cpu e)).2
    ∧ SNESPPU.canvas (ppu e')
      = SNESPPU.canvas (ppu e)
        ++ replicate n (Canvas.mk_item 0 0 test_image)
    ∧ SNESPPU.width (ppu e') = 256 ∧ SNESPPU.height (ppu e') = 224
    ∧ is_running e' = true.
Proof.
  revert e. induction n as [|n IH]; intros e Hrun Hw Hh Hsteps.
  - exists e. split; [reflexivity|]. cbn [replicate Nat.mul].
    rewrite app_nil_r. done.
  - change (S n * 100)%nat with (100 + n * 100)%nat in *.
    pose proof (steps_add_returns _ _ _ Hsteps) as [H100 Hrest].
    destruct (emulate_running e Hrun Hw Hh H100)
      as (e1 & He1 & Hcpu1 & Hppu1 & Hrun1 & _).
    rewrite frames_S, He1, Hrest.
    destruct (IH e1) as (e' & He' & Hcpu' & Hcanvas' & Hw' & Hh' & Hrun');
      [done|by rewrite Hppu1|by rewrite Hppu1| |].
    + rewrite Hcpu1. rewrite Hrest in Hsteps. exact Hsteps.
    + exists e'. rewrite Hcpu1 in Hcpu'.
      split; [done|]. split; [done|]. split; [|done].
      rewrite Hcanvas', Hppu1. cbn [SNESPPU.canvas replicate].
      by rewrite <- app_assoc.
Qed.

Lemma constructed_steps_return n :
  (SimpleSNESCPU.steps n SimpleSNESCPU.init).1 = Py.Normal tt.
Proof.
  destruct (StepFacts.steps_from_test_program n SimpleSNESCPU.init
              StepFacts.init_at_test_program) as [s' Hs'].
  by rewrite Hs'.
Qed.

Lemma at_store_steps_return n :
  (SimpleSNESCPU.steps n Examples.at_store).1 = Py.Normal tt.
Proof.
  pose proof (constructed_steps_return (1 + n)) as H.
  apply steps_add_returns in H as [_ H1].
  pose proof (constructed_steps_return (1 + n)) as H.
  rewrite H1 in H.
  rewrite CPUFacts.steps_S in H.
  rewrite (CPUFacts.step_lda SimpleSNESCPU.init x05) in H.
  - exact H.
  - exact (CPUFacts.init_memory_program 0 xa9 eq_refl).
  - exact (CPUFacts.init_memory_program 1 x05 eq_refl).
Qed.

Lemma pause_emulation_result e :
  pause_emulation e
  = (Py.Normal tt, set_status_label "Paused" (set_is_running false e)).
Proof. reflexivity. Qed.

Lemma stop_emulation_result e :
  stop_emulation e
  = (Py.Normal tt,
     set_ppu (SNESPPU.set_canvas [] (ppu e))
       (set_status_label "Stopped" (set_is_running false e))).
Proof. reflexivity. Qed.

Lemma start_emulation_result e :
  start_emulation e
  = emulate (set_status_label "Running" (set_is_running true e)).
Proof. reflexivity. Qed.

(** X20: after [pause_emulation] or [stop_emulation], callbacks that
    still arrive do nothing: any number of calls of [emulate] return
    without a step of the CPU, without a render and without scheduling a
    further callback, so the emulator stays as the pause or the stop left
    it. *)
Theorem callbacks_after_pause_or_stop_do_nothing n e :
  (pause_emulation;; frames n) e = pause_emulation e
  ∧ (stop_emulation;; frames n) e = stop_emulation e.
Proof.
  split.
  - unfold mbind, method_bind. rewrite pause_emulation_result.
    by rewrite frames_not_running.
  - unfold mbind, method_bind. rewrite stop_emulation_result.
    by rewrite frames_not_running.
Qed.

(** X21: [n] callbacks of a running emulator (with the PPU of the
    constructed size) whose steps all return make [100 * n] calls of
    [step] in all, and put [n] images on the canvas, one a callback, on
    top of what the canvas held: no callback removes an item. *)
Theorem frames_step_and_pile_up_images n e :
  is_running e = true →
  SNESPPU.width (ppu e) = 256 → SNESPPU.height (ppu e) = 224 →
  (SimpleSNESCPU.steps (n * 100) (cpu e)).1 = Py.Normal tt →
  ∃ e', frames n e = (Py.Normal tt, e')
    ∧ cpu e' = (SimpleSNESCPU.steps (n * 100) (cpu e)).2
    ∧ SNESPPU.canvas (ppu e')
      = SNESPPU.canvas (ppu e)
        ++ replicate n (Canvas.mk_item 0 0 test_image)
    ∧ is_running e' = true.
Proof.
  intros Hrun Hw Hh Hsteps.
  destruct (frames_running n e Hrun Hw Hh Hsteps)
    as (e' & He' & Hcpu & Hcanvas & _ & _ & Hrun').
  by exists e'.
Qed.

Lemma frames_step_and_pile_up_images_witness :
  ∃ e', frames 3 Examples.mid_run = (Py.Normal tt, e')
    ∧ cpu e' = (SimpleSNESCPU.steps (3 * 100) (cpu Examples.mid_run)).2
    ∧ SNESPPU.canvas (ppu e')
      = SNESPPU.canvas (ppu Examples.mid_run)
        ++ replicate 3 (Canvas.mk_item 0 0 test_image)
    ∧ is_running e' = true.
Proof.
  exact (frames_step_and_pile_up_images 3 Examples.mid_run
           eq_refl eq_refl eq_refl (at_store_steps_return (3 * 100))).
Defined.

(** X22: the picture of a frame does not depend on the CPU.  Whatever the
    memory and the registers of a running emulator (with the PPU of the
    constructed size) whose hundred steps return, the image a callback
    renders has the pixel [(x, x, x)] at every [(x, y)] of the screen: a
    gray ramp from left to right, the same in every row. *)
Theorem frame_picture_is_a_gray_ramp e x y :
  is_running e = true →
  SNESPPU.width (ppu e) = 256 → SNESPPU.height (ppu e) = 224 →
  (SimpleSNESCPU.steps 100 (cpu e)).1 = Py.Normal tt →
  0 ≤ x < 256 → 0 ≤ y < 224 →
  ∃ e' img, emulate e = (Py.Normal tt, e')
    ∧ SNESPPU.ppu_image (ppu e') = Some img
    ∧ Image.getpixel img x y = Some (x, x, x).
Proof.
  intros Hrun Hw Hh Hsteps Hx Hy.
  destruct (emulate_running e Hrun Hw Hh Hsteps)
    as (e' & He' & _ & Hppu & _).
  exists e', test_image. split; [done|]. split; [by rewrite Hppu|].
  by apply test_image_pixel.
Qed.

Lemma frame_picture_is_a_gray_ramp_witness :
  ∃ e' img, emulate Examples.mid_run = (Py.Normal tt, e')
    ∧ SNESPPU.ppu_image (ppu e') = Some img
    ∧ Image.getpixel img 200 100 = Some (200, 200, 200).
Proof.
  refine (frame_picture_is_a_gray_ramp Examples.mid_run 200 100
            eq_refl eq_refl eq_refl (at_store_steps_return 100) _ _); lia.
Defined.

(** X23: [start_emulation] does not look at [is_running].  Called twice
    in a row (with the PPU of the constructed size, the steps returning),
    it runs two frames at once, 200 steps and two images, and schedules
    two callbacks. *)
Theorem start_emulation_twice e :
  SNESPPU.width (ppu e) = 256 → SNESPPU.height (ppu e) = 224 →
  (SimpleSNESCPU.steps 200 (cpu e)).1 = Py.Normal tt →
  ∃ e', (start_emulation;; start_emulation) e = (Py.Normal tt, e')
    ∧ cpu e' = (SimpleSNESCPU.steps 200 (cpu e)).2
    ∧ SNESPPU.canvas (ppu e')
      = SNESPPU.canvas (ppu e)
        ++ [Canvas.mk_item 0 0 test_image; Canvas.mk_item 0 0 test_image]
    ∧ timers e' = timers e ++ [16; 16]
    ∧ is_running e' = true.
Proof.
  intros Hw Hh Hsteps.
  change 200%nat with (100 + 100)%nat in *.
  pose proof (steps_add_returns _ _ _ Hsteps) as [H100 Hrest].
  rewrite Hrest in Hsteps.
  destruct (emulate_running
              (set_status_label "Running" (set_is_running true e))
              eq_refl Hw Hh H100)
    as (e1 & He1 & Hcpu1 & Hppu1 & Hrun1 & Htimers1 & _).
  cbn [cpu ppu timers set_status_label set_is_running] in *.
  destruct (emulate_running
              (set_status_label "Running" (set_is_running true e1)))
    as (e2 & He2 & Hcpu2 & Hppu2 & Hrun2 & Htimers2 & _);
    cbn [cpu ppu timers is_running set_status_label set_is_running];
    [done|by rewrite Hppu1|by rewrite Hppu1|by rewrite Hcpu1|].
  cbn [cpu ppu timers set_status_label set_is_running] in *.
  exists e2. unfold mbind, method_bind.
  rewrite start_emulation_result, He1, start_emulation_result, He2.
  split; [done|]. split; [by rewrite Hcpu2, Hcpu1, Hrest|].
  split; [by rewrite Hppu2, Hppu1; cbn [SNESPPU.canvas];
            rewrite <- app_assoc|].
  split; [by rewrite Htimers2, Htimers1, <- app_assoc|done].
Qed.

Lemma start_emulation_twice_witness :
  ∃ e', (start_emulation;; start_emulation) Examples.mid_run
        = (Py.Normal tt, e')
    ∧ cpu e' = (SimpleSNESCPU.steps 200 (cpu Examples.mid_run)).2
    ∧ SNESPPU.canvas (ppu e')
      = SNESPPU.canvas (ppu Examples.mid_run)
        ++ [Canvas.mk_item 0 0 test_image; Canvas.mk_item 0 0 test_image]
    ∧ timers e' = timers Examples.mid_run ++ [16; 16]
    ∧ is_running e' = true.
Proof.
  exact (start_emulation_twice Examples.mid_run eq_refl eq_refl
           (at_store_steps_return 200)).
Defined.

(** X24: [stop_emulation] does not reset the CPU.  A stop followed by a
    start (with the PPU of the constructed size, the steps returning)
    goes on from the memory and the registers the CPU had: the hundred
    steps of the first frame start there.  What the stop has cleared is
    the canvas, which then holds the image of that frame alone. *)
Theorem stop_then_start_goes_on e :
  SNESPPU.width (ppu e) = 256 → SNESPPU.height (ppu e) = 224 →
  (SimpleSNESCPU.steps 100 (cpu e)).1 = Py.Normal tt →
  ∃ e', (stop_emulation;; start_emulation) e = (Py.Normal tt, e')
    ∧ cpu e' = (SimpleSNESCPU.steps 100 (cpu e)).2
    ∧ SNESPPU.canvas (ppu e') = [Canvas.mk_item 0 0 test_image]
    ∧ is_running e' = true.
Proof.
  intros Hw Hh Hsteps.
  destruct (emulate_running
              (set_status_label "Running"
                 (set_is_running true
                    (set_ppu (SNESPPU.set_canvas [] (ppu e))
                       (set_status_label "Stopped"
                          (set_is_running false e))))))
    as (e' & He' & Hcpu & Hppu & Hrun & _); [done..|].
  exists e'. unfold mbind, method_bind.
  rewrite stop_emulation_result, start_emulation_result, He'.
  split; [done|]. split; [done|]. split; [by rewrite Hppu|done].
Qed.

Lemma stop_then_start_goes_on_witness :
  ∃ e', (stop_emulation;; start_emulation) Examples.mid_run
        = (Py.Normal tt, e')
    ∧ cpu e' = (SimpleSNESCPU.steps 100 (cpu Examples.mid_run)).2
    ∧ SNESPPU.canvas (ppu e') = [Canvas.mk_item 0 0 test_image]
    ∧ is_running e' = true.
Proof.
  exact (stop_then_start_goes_on Examples.mid_run eq_refl eq_refl
           (at_store_steps_return 100)).
Defined.

End FrameFacts.
